(** * puppetizer-base: the supervisor of [src/init/init.c]

    A shallow embedding of the event loop, the signal handler, the client
    command handler and the halt procedure of [init.c], with the properties of
    the supervisor stated over it.

    [init.c] keeps three globals ([is_halting], [boot_pid], [halt_thread]),
    reads and marks entries of the service table, and calls the spawner, the
    socket layer and the logger.  The model threads one [world] value through
    every function: the globals, the service table, the halt threads that were
    created and have not run yet, the state of everything outside the process,
    and the trace of what the code did (log lines and calls), oldest first.

    The loop is run over a schedule: what each [epoll_wait] reports, event by
    event, and the points at which a halt thread created by [pthread_create]
    gets to run.  A halt thread runs [init_halt] in one piece at such a
    point; the loop and the thread do not interleave more finely than that.

    The headers [init.c] includes (common.h, control.h, service.h, spawn.h,
    log.h) and the code behind them are not under src/: their constants are
    the fields of [Headers], the calls into them the fields of
    [Environment], and the lookups and marks of the service table are
    modelled from the spec. *)

From Stdlib Require Import ZArith List String Bool Lia.
Import ListNotations.
Local Open Scope string_scope.
Local Open Scope list_scope.
Local Open Scope Z_scope.

(** ** What the headers declare *)

(** <signal.h> on Linux. *)
Definition SIGHUP : Z := 1.
Definition SIGINT : Z := 2.
Definition SIGTERM : Z := 15.
Definition SIGCHLD : Z := 17.

(** [control_command_t.type]: the three commands of control.h, and any other
    value the field can hold when a frame is read off the wire. *)
Inductive control_command_type_t :=
| CMD_START
| CMD_STOP
| CMD_STATUS
| CMD_other (n : Z).

Record control_command_t := {
  type : control_command_type_t;
  name : string
}.

(** [status_t] of common.h as [init_loop] tells its values apart. *)
Inductive status_t :=
| S_OK
| S_SOCKET_EOF
| S_other (n : Z).

(** [struct service] of service.h: the fields [init.c] reads, and the pid
    [service_find_by_pid] searches for. *)
Record service := {
  svc_name : string;
  svc_pid : Z;
  svc_state : Z
}.

Definition registry := list service.

(** The two fields of [struct signalfd_siginfo] the handler reads.  Both are
    [uint32_t] in C; the handler hands [ssi_pid] on as a [pid_t], which
    leaves the numbers below [2 ^ 31] as they are.  The fields are kept as
    plain integers here, and what is proved of the pid handed on is stated
    for pids of that range. *)
Record signalfd_siginfo := {
  ssi_signo : Z;
  ssi_pid : Z
}.

(** <sys/epoll.h>: the two operations [init_loop] asks of [epoll_ctl]. *)
Inductive epoll_op := EPOLL_CTL_ADD | EPOLL_CTL_DEL.

(** The constants of common.h, control.h and service.h.  The headers are not
    part of the sources at hand, so their values are parameters of the
    development. *)
Class Headers := {
  (* common.h *)
  PUPPETIZER_APPLY : string;
  PUPPETIZER_CONTROL_SOCKET : string;
  ERROR_SPAWN_FAILED : Z;
  ERROR_THREAD_FAILED : Z;
  ERROR_FD_FAILED : Z;
  ERROR_SOCKET_FAILED : Z;
  ERROR_EPOLL_FAILED : Z;
  ERROR_EPOLL_WAIT : Z;
  ERROR_EPOLL_SIGNAL_MESSAGE : Z;
  ERROR_EPOLL_SIGNAL : Z;
  ERROR_BOOT_FAILED : Z;
  (* control.h *)
  CMD_RESPONSE_ERROR : Z;
  CMD_RESPONSE_OK : Z;
  CMD_RESPONSE_FAILED : Z;
  CMD_RESPONSE_STATE : Z;
  sizeof_control_reponse_t : Z;
  (* Modelled from the spec: the protocol's FAILED_LOOKUP tag ("service not
     found"); init.c never names it. *)
  CMD_RESPONSE_FAILED_LOOKUP : Z;
  (* service.h *)
  STATE_DOWN : Z;
  STATE_PENDING_DOWN : Z
}.

(** Everything [init.c] calls and does not define: the spawner, the part of
    the service table that starts and stops processes, the kernel.  Each call
    reads and updates a state [os] the supervisor cannot see, so an
    environment may answer the same call differently each time. *)
Class Environment := {
  os : Type;
  (* spawn.h *)
  spawn1 : string -> os -> Z * os;
  spawn2_wait : string -> string -> os -> Z * os;
  spawn_retval : Z -> Z;
  (* service.h *)
  service_start : nat -> registry -> os -> (bool * registry) * os;
  service_stop : nat -> registry -> os -> (bool * registry) * os;
  service_stop_all : registry -> os -> (Z * registry) * os;
  (* control.h *)
  control_listen : Z -> os -> (status_t * Z) * os;
  (* the kernel and libpthread *)
  waitpid : Z -> os -> Z * os;
  pthread_create : os -> (Z * Z) * os;
  send : Z -> Z -> Z -> os -> Z * os;
  signalfd : os -> Z * os;
  epoll_create1 : os -> Z * os;
  epoll_ctl : Z -> epoll_op -> Z -> os -> Z * os
}.

(** ** The trace *)

Inductive level := LOG_DEBUG | LOG_INFO | LOG_WARNING | LOG_ERROR.

Inductive logarg :=
| arg_d (z : Z)
| arg_s (s : string)
| arg_cmd (t : control_command_type_t).

(** What the process did, as a system-call tracer would print it: a log line,
    the store to [is_halting], or a call with the value it returned. *)
Inductive effect :=
| logged (l : level) (fmt : string) (args : list logarg)
| store_is_halting
| call_spawn1 (path : string) (pid : Z)
| call_spawn2_wait (path arg : string) (retval : Z)
| call_waitpid (pid : Z) (status : Z)
| call_service_start (svc : nat) (ok : bool)
| call_service_stop (svc : nat) (ok : bool)
| call_service_set_down (svc : nat)
| call_service_stop_all (outstanding : Z)
| call_pthread_create (rc handle : Z)
| call_pthread_join (thread : Z)
| call_send (socket word len : Z) (sent : Z)
| call_epoll_ctl (op : epoll_op) (fd : Z) (rc : Z)
| call_shutdown (fd : Z)
| call_unlink (path : string).

Section Init.

Context {H : Headers} {E : Environment}.

(** ** The state of the process *)

Record world := {
  is_halting : bool;      (* static bool is_halting = FALSE *)
  boot_pid : Z;           (* static pid_t boot_pid *)
  halt_thread : Z;        (* static pthread_t halt_thread = 0 *)
  services : registry;    (* the table behind service_find_by_* *)
  pending : nat;          (* halt threads created that have not run yet *)
  env : os;
  trace : list effect
}.

Definition initial_world (r : registry) (o : os) : world :=
  {| is_halting := false; boot_pid := 0; halt_thread := 0; services := r;
     pending := 0; env := o; trace := [] |}.

Definition with_is_halting (b : bool) (w : world) : world :=
  {| is_halting := b; boot_pid := boot_pid w; halt_thread := halt_thread w;
     services := services w; pending := pending w; env := env w;
     trace := trace w |}.

Definition with_boot_pid (p : Z) (w : world) : world :=
  {| is_halting := is_halting w; boot_pid := p; halt_thread := halt_thread w;
     services := services w; pending := pending w; env := env w;
     trace := trace w |}.

Definition with_halt_thread (t : Z) (w : world) : world :=
  {| is_halting := is_halting w; boot_pid := boot_pid w; halt_thread := t;
     services := services w; pending := pending w; env := env w;
     trace := trace w |}.

Definition with_services (r : registry) (w : world) : world :=
  {| is_halting := is_halting w; boot_pid := boot_pid w;
     halt_thread := halt_thread w; services := r; pending := pending w;
     env := env w; trace := trace w |}.

Definition with_pending (n : nat) (w : world) : world :=
  {| is_halting := is_halting w; boot_pid := boot_pid w;
     halt_thread := halt_thread w; services := services w; pending := n;
     env := env w; trace := trace w |}.

Definition with_env (o : os) (w : world) : world :=
  {| is_halting := is_halting w; boot_pid := boot_pid w;
     halt_thread := halt_thread w; services := services w;
     pending := pending w; env := o; trace := trace w |}.

Definition with_trace (t : list effect) (w : world) : world :=
  {| is_halting := is_halting w; boot_pid := boot_pid w;
     halt_thread := halt_thread w; services := services w;
     pending := pending w; env := env w; trace := t |}.

(** ** The monad: state, and the exit of the process in [fatal] *)

Inductive result (A : Type) :=
| Done (a : A) (w : world)
| Fatal (code : Z) (w : world).

Arguments Done {A} a w.
Arguments Fatal {A} code w.

Definition M (A : Type) := world -> result A.

Definition ret {A} (a : A) : M A := fun w => Done a w.

Definition bind {A B} (c : M A) (k : A -> M B) : M B :=
  fun w => match c w with
           | Done a w' => k a w'
           | Fatal code w' => Fatal code w'
           end.

Notation "x <- c ;; k" := (bind c (fun x => k))
  (at level 61, c at next level, right associativity).
Notation "c ;; k" := (bind c (fun _ => k))
  (at level 61, right associativity).

Definition final_world {A} (r : result A) : world :=
  match r with Done _ w => w | Fatal _ w => w end.

Definition emit (e : effect) : M unit :=
  fun w => Done tt (with_trace (trace w ++ [e]) w).

Definition load {A} (f : world -> A) : M A := fun w => Done (f w) w.

Definition store (f : world -> world) : M unit := fun w => Done tt (f w).

(** A call into the environment, traced with what it returned. *)
Definition call {A} (f : os -> A * os) (traced : A -> list effect) : M A :=
  fun w => let '(a, o) := f (env w) in
           Done a (with_trace (trace w ++ traced a) (with_env o w)).

Definition untraced {A} (a : A) : list effect := [].

(** log.h *)
Definition log_debug (fmt : string) (args : list logarg) : M unit :=
  emit (logged LOG_DEBUG fmt args).
Definition log_info (fmt : string) (args : list logarg) : M unit :=
  emit (logged LOG_INFO fmt args).
Definition log_warning (fmt : string) (args : list logarg) : M unit :=
  emit (logged LOG_WARNING fmt args).
Definition log_error (fmt : string) (args : list logarg) : M unit :=
  emit (logged LOG_ERROR fmt args).

(** [fatal] and [fatal_errno] log the message and leave the process with
    [code]. *)
Definition fatal {A} (fmt : string) (code : Z) (args : list logarg) : M A :=
  fun w => Fatal code (with_trace (trace w ++ [logged LOG_ERROR fmt args]) w).

(** ** The service table *)

(** Modelled from the spec: service.c is not among the sources.  The lookups
    return the first entry with the name (the pid); a [struct service *] is
    the position of the entry together with the entry as it is read through
    the pointer. *)
Fixpoint find_service (p : service -> bool) (r : registry)
  : option (nat * service) :=
  match r with
  | [] => None
  | s :: r' =>
      if p s then Some (O, s)
      else match find_service p r' with
           | Some (i, s') => Some (S i, s')
           | None => None
           end
  end.

Definition has_name (n : string) (s : service) : bool :=
  String.eqb (svc_name s) n.

Definition has_pid (pid : Z) (s : service) : bool := svc_pid s =? pid.

Definition service_find_by_name (n : string) : M (option (nat * service)) :=
  load (fun w => find_service (has_name n) (services w)).

Definition service_find_by_pid (pid : Z) : M (option (nat * service)) :=
  load (fun w => find_service (has_pid pid) (services w)).

(** Modelled from the spec: [service_set_down] marks the entry [DOWN]. *)
Fixpoint set_down_at (i : nat) (r : registry) : registry :=
  match r, i with
  | [], _ => []
  | s :: r', O =>
      {| svc_name := svc_name s; svc_pid := svc_pid s;
         svc_state := STATE_DOWN |} :: r'
  | s :: r', S i' => s :: set_down_at i' r'
  end.

Definition service_set_down (svc : nat) : M unit :=
  emit (call_service_set_down svc) ;;
  store (fun w => with_services (set_down_at svc (services w)) w).

(** Modelled from the spec: [service_count_by_state(state, negate)] counts the
    entries in [state], or with [negate] the entries in any other state. *)
Definition count_by_state (st : Z) (negate : bool) (r : registry) : Z :=
  Z.of_nat (List.length
    (filter (fun s => xorb (svc_state s =? st) negate) r)).

Definition service_count_by_state (st : Z) (negate : bool) : M Z :=
  load (fun w => count_by_state st negate (services w)).

(** The calls that start and stop processes act on the table and on the
    environment. *)
Definition call_registry {A} (f : registry -> os -> (A * registry) * os)
    (traced : A -> effect) : M A :=
  fun w => let '((a, r), o) := f (services w) (env w) in
           Done a (with_trace (trace w ++ [traced a])
                     (with_env o (with_services r w))).

(** ** [init_apply] (init.c, lines 48-55) *)

Definition init_apply : M Z :=
  apply_pid <- call (spawn1 PUPPETIZER_APPLY)
                 (fun pid => [call_spawn1 PUPPETIZER_APPLY pid]) ;;
  if apply_pid =? -1
  then fatal "Failed to start puppet apply" ERROR_SPAWN_FAILED []
  else ret apply_pid.

(** ** [init_handle_client_command] (init.c, lines 57-91) *)

(** [control_reponse_t] holds [sizeof(control_reponse_t)] bytes. *)
Definition to_control_reponse_t (v : Z) : Z :=
  v mod 2 ^ (8 * sizeof_control_reponse_t).

(** [svc->state<<4 | CMD_RESPONSE_STATE], stored in a [control_reponse_t]. *)
Definition status_response (state : Z) : Z :=
  to_control_reponse_t (Z.lor (Z.shiftl state 4) CMD_RESPONSE_STATE).

Definition init_handle_client_command (command : control_command_t)
    (socket : Z) : M bool :=
  svc <- service_find_by_name (name command) ;;
  resp <-
    match svc with
    | None =>
        log_warning "Service %s was not found" [arg_s (name command)] ;;
        ret CMD_RESPONSE_ERROR
    | Some (i, s) =>
        log_debug "cmd type: %d" [arg_cmd (type command)] ;;
        match type command with
        | CMD_START =>
            halting <- load is_halting ;;
            if halting
            then log_warning "Ignoring service start request" [] ;;
                 ret CMD_RESPONSE_ERROR
            else ok <- call_registry (service_start i) (call_service_start i) ;;
                 ret (if ok then CMD_RESPONSE_OK else CMD_RESPONSE_FAILED)
        | CMD_STOP =>
            halting <- load is_halting ;;
            if halting
            then log_warning "Ignoring service stop request" [] ;;
                 ret CMD_RESPONSE_ERROR
            else ok <- call_registry (service_stop i) (call_service_stop i) ;;
                 ret (if ok then CMD_RESPONSE_OK else CMD_RESPONSE_FAILED)
        | CMD_STATUS =>
            let r := status_response (svc_state s) in
            log_debug "resp: %d" [arg_d r] ;;
            ret r
        | CMD_other _ => ret CMD_RESPONSE_ERROR
        end
    end ;;
  n <- call (send socket resp sizeof_control_reponse_t)
         (fun n => [call_send socket resp sizeof_control_reponse_t n]) ;;
  ret (n =? sizeof_control_reponse_t).

(** ** [init_halt] and [init_halt_thread] (init.c, lines 104-133) *)

(** [is_halting = TRUE;]: the store, and its line in the trace. *)
Definition set_is_halting : M unit :=
  fun w =>
    Done tt
      (with_is_halting true (with_trace (trace w ++ [store_is_halting]) w)).

Definition init_halt : M unit :=
  halting <- load is_halting ;;
  if halting then ret tt
  else
    set_is_halting ;;
    log_debug "Running halt action" [] ;;
    r <- call (spawn2_wait PUPPETIZER_APPLY "halt")
           (fun r => [call_spawn2_wait PUPPETIZER_APPLY "halt" r]) ;;
    (if r =? 0 then ret tt
     else log_error "Puppet halt failed with exitcode %d" [arg_d r]) ;;
    n <- call_registry service_stop_all call_service_stop_all ;;
    let i := n mod 256 in  (* uint8_t i *)
    if 0 <? i
    then log_warning "Stopping %d outstanding services." [arg_d i]
    else ret tt.

(** [pthread_create] answers its return value and the handle it stored; the
    new thread runs [init_halt] when the scheduler lets it. *)
Definition init_halt_thread : M unit :=
  r <- call pthread_create (fun r => [call_pthread_create (fst r) (snd r)]) ;;
  let '(rc, handle) := r in
  if rc =? 0
  then store (fun w => with_pending (S (pending w)) (with_halt_thread handle w))
  else fatal "Halt thread creation failed with %d" ERROR_THREAD_FAILED [arg_d rc].

(** A created halt thread gets the processor: it runs [init_halt] to its
    end.  The thread is run between two events of a wake-up and as one step;
    init.c takes no lock around the test of line 108 and the store of line
    110, and the interleavings of a halt thread with a handler or with
    another halt thread are not followed here. *)
Definition halt_thread_runs : M unit :=
  n <- load pending ;;
  match n with
  | O => ret tt
  | S n' => store (with_pending n') ;; init_halt
  end.

(** ** [init_handle_signal] (init.c, lines 136-193) *)

Definition init_handle_signal (info : signalfd_siginfo) : M bool :=
  let signo := ssi_signo info in
  if signo =? SIGCHLD then
    status <- call (waitpid (ssi_pid info))
                (fun status => [call_waitpid (ssi_pid info) status]) ;;
    let retval := spawn_retval status in
    bp <- load boot_pid ;;
    if (bp =? ssi_pid info) && negb (retval =? 0)
    then log_error "Boot script failed" [] ;; ret false   (* return FALSE *)
    else
      (if bp =? ssi_pid info then log_info "Booting completed" [] else ret tt) ;;
      svc <- service_find_by_pid (ssi_pid info) ;;
      match svc with
      | None =>
          log_info "Reaped zombie PID:%d" [arg_d (ssi_pid info)] ;;
          ret true
      | Some (i, s) =>
          let svc_state := svc_state s in
          service_set_down i ;;
          log_error "Service %s exitted with code %d"
            [arg_s (svc_name s); arg_d retval] ;;
          (if negb (svc_state =? STATE_PENDING_DOWN) || negb (retval =? 0)
           then log_debug
                  "Service exitted with code %d when had status %d, halting"
                  [arg_d retval; arg_d svc_state] ;;
                init_halt_thread
           else ret tt) ;;
          ret true
      end
  else if (signo =? SIGTERM) || (signo =? SIGINT) then
    halting <- load is_halting ;;
    (if halting then log_warning "Ignoring halting request" []
     else log_debug "Halting" [] ;; init_halt_thread) ;;
    ret true
  else if signo =? SIGHUP then
    halting <- load is_halting ;;
    (if halting then log_warning "Ignoring puppet aply request" []
     else log_debug "Running puppet apply" [] ;; _ <- init_apply ;; ret tt) ;;
    ret true
  else ret true.

(** ** [init_loop] (init.c, lines 195-335) *)

(** What one ready descriptor of [epoll_wait] delivers when the loop reads it:
    - the signal descriptor: the record [read] fills in, or nothing when
      [read] returns another size than [sizeof(struct signalfd_siginfo)];
    - the listening socket: the descriptor [accept] returns;
    - a client socket [fd]: the status and the frame of
      [control_read_command]. *)
Inductive epoll_event :=
| EV_signal (rd : option signalfd_siginfo)
| EV_control (fd_client : Z)
| EV_client (fd : Z) (status : status_t) (command : control_command_t).

(** One wake-up of the loop handles [events[0..changes)] in order.  A halt
    thread runs beside the loop: [Halt_thread_runs] marks a point between two
    events where the scheduler lets a created halt thread run. *)
Inductive slot :=
| Ready (ev : epoll_event)
| Halt_thread_runs.

Inductive wakeup :=
| Epoll_ready (slots : list slot)   (* epoll_wait returned these events *)
| Epoll_failed.                     (* epoll_wait returned -1 *)

Definition handle_client (fd_epoll fd : Z) (status : status_t)
    (command : control_command_t) : M unit :=
  errored <-
    match status with
    | S_SOCKET_EOF => ret true
    | S_OK =>
        ok <- init_handle_client_command command fd ;;
        if ok then ret false
        else log_warning "Failed to handle client message" [] ;; ret true
    | S_other _ =>
        log_warning "Failed to read client message" [] ;; ret true
    end ;;
  if errored : bool then
    r <- call (epoll_ctl fd_epoll EPOLL_CTL_DEL fd)
           (fun r => [call_epoll_ctl EPOLL_CTL_DEL fd r]) ;;
    if r =? -1
    then fatal "Failed to remove client socket polling" ERROR_EPOLL_FAILED []
    else emit (call_shutdown fd)
  else ret tt.

(** The [for (i = 0; i < changes; i++)] of lines 263-316.  The value is the
    local [exit_code] after it; each [break] of the C loop leaves this inner
    loop only, so the remaining events of the wake-up are skipped. *)
Fixpoint handle_events (fd_epoll : Z) (slots : list slot) (exit_code : Z)
  : M Z :=
  match slots with
  | [] => ret exit_code
  | Halt_thread_runs :: rest =>
      halt_thread_runs ;; handle_events fd_epoll rest exit_code
  | Ready (EV_signal None) :: _ =>
      log_error "Bad signal size info read" [] ;;
      ret ERROR_EPOLL_SIGNAL_MESSAGE
  | Ready (EV_signal (Some info)) :: rest =>
      ok <- init_handle_signal info ;;
      if ok : bool then handle_events fd_epoll rest exit_code
      else ret ERROR_EPOLL_SIGNAL
  | Ready (EV_control fd_client) :: rest =>
      r <- call (epoll_ctl fd_epoll EPOLL_CTL_ADD fd_client)
             (fun r => [call_epoll_ctl EPOLL_CTL_ADD fd_client r]) ;;
      if r =? -1
      then log_error "Failed to setup control client socket polling" [] ;;
           ret ERROR_SOCKET_FAILED
      else handle_events fd_epoll rest exit_code
  | Ready (EV_client fd status command) :: rest =>
      handle_client fd_epoll fd status command ;;
      handle_events fd_epoll rest exit_code
  end.

(** The [for (;;)] of lines 255-324 over the wake-ups of a schedule: [Some] of
    the local [exit_code] when the loop was left, [None] when the schedule
    ends with the loop still waiting. *)
Fixpoint loop (fd_epoll : Z) (sched : list wakeup) (exit_code : Z)
  : M (option Z) :=
  match sched with
  | [] => ret None
  | Epoll_failed :: _ => fatal "Could not wait for events" ERROR_EPOLL_WAIT []
  | Epoll_ready slots :: rest =>
      log_debug "loop" [] ;;
      exit_code' <- handle_events fd_epoll slots exit_code ;;
      halting <- load is_halting ;;
      if halting : bool then
        n <- service_count_by_state STATE_DOWN true ;;
        (if n =? 0 then log_info "No more services running, exitting" []
         else ret tt) ;;
        ret (Some exit_code')
      else loop fd_epoll rest exit_code'
  end.

Definition init_create_signal_fd : M Z :=
  fd_signal <- call signalfd untraced ;;
  if fd_signal =? -1
  then fatal "Failed to create signal descriptor" ERROR_FD_FAILED []
  else ret fd_signal.

(** [init_loop] in its three parts: the descriptors (lines 229-253), the loop
    (lines 255-324), and what follows the loop (lines 326-334). *)
Definition init_loop_setup : M (Z * Z) :=
  fd_signal <- init_create_signal_fd ;;
  l <- call (control_listen 5) untraced ;;
  let '(status, fd_control) := l in
  match status with
  | S_OK =>
      fd_epoll <- call epoll_create1 untraced ;;
      if fd_epoll =? -1
      then fatal "Failed to setup polling" ERROR_EPOLL_FAILED []
      else
        r1 <- call (epoll_ctl fd_epoll EPOLL_CTL_ADD fd_signal)
                (fun r => [call_epoll_ctl EPOLL_CTL_ADD fd_signal r]) ;;
        if r1 =? -1
        then fatal "Failed to setup signal polling" ERROR_EPOLL_FAILED []
        else
          r2 <- call (epoll_ctl fd_epoll EPOLL_CTL_ADD fd_control)
                  (fun r => [call_epoll_ctl EPOLL_CTL_ADD fd_control r]) ;;
          if r2 =? -1
          then fatal "Failed to setup control socket polling"
                 ERROR_EPOLL_FAILED []
          else ret (fd_control, fd_epoll)
  | _ => fatal "Failed to create listening socket" ERROR_SOCKET_FAILED []
  end.

(** [pthread_join] returns when the joined thread has ended: if it has not
    run yet, it runs now. *)
Definition init_loop_leave (fd_control : Z) (left : option Z)
  : M (option Z) :=
  match left with
  | None => ret None
  | Some exit_code =>
      emit (call_shutdown fd_control) ;;
      emit (call_unlink PUPPETIZER_CONTROL_SOCKET) ;;
      thread <- load halt_thread ;;
      (if thread =? 0 then ret tt
       else log_debug "Waiting for halt thread to exit" [] ;;
            emit (call_pthread_join thread) ;;
            halt_thread_runs) ;;
      ret (Some exit_code)
  end.

Definition init_loop (sched : list wakeup) : M (option Z) :=
  fds <- init_loop_setup ;;
  let '(fd_control, fd_epoll) := fds in
  left <- loop fd_epoll sched 0 ;;
  init_loop_leave fd_control left.

(** ** [init_boot] (init.c, lines 337-352) *)

Definition init_boot (sched : list wakeup) : M (option Z) :=
  pid <- init_apply ;;
  store (with_boot_pid pid) ;;
  if pid =? -1
  then fatal "Could not start boot script" ERROR_BOOT_FAILED []
  else init_loop sched.

(** ** Reading a trace *)

(** The value a run returned, if the process did not exit in it. *)
Definition returned {A} (r : result A) : option A :=
  match r with Done a _ => Some a | Fatal _ _ => None end.

(** The effects a run added to the trace of the world it started from. *)
Definition since (w : world) {A} (r : result A) : list effect :=
  skipn (List.length (trace w)) (trace (final_world r)).

(** The commands the handler answers with the generic error tag: the name is
    not in the table, the type is none of the three, or a start or a stop
    arrives while halting. *)
Definition answered_with_error (command : control_command_t) (w : world)
  : Prop :=
  find_service (has_name (name command)) (services w) = None \/
  (exists n, type command = CMD_other n) \/
  (is_halting w = true /\
   (type command = CMD_START \/ type command = CMD_STOP)).

(** A property of the world that every step of [c] keeps. *)
Definition keeps (P : world -> Prop) {A} (c : M A) : Prop :=
  forall w, P w -> P (final_world (c w)).

(** Every effect but the store to [is_halting]. *)
Definition not_a_store (e : effect) : bool :=
  match e with store_is_halting => false | _ => true end.

(** A property of the world that is disturbed neither by adding log lines and
    calls to the trace, nor by what a call changes in the environment, the
    table or the thread bookkeeping, nor by the store with which the halt
    procedure sets [is_halting]. *)
Record stable (P : world -> Prop) : Prop := {
  stable_trace : forall l w,
    forallb not_a_store l = true -> P w -> P (with_trace (trace w ++ l) w);
  stable_env : forall o w, P w -> P (with_env o w);
  stable_services : forall r w, P w -> P (with_services r w);
  stable_pending : forall n w, P w -> P (with_pending n w);
  stable_halt_thread : forall h w, P w -> P (with_halt_thread h w);
  stable_store : forall w,
    is_halting w = false -> P w ->
    P (with_is_halting true (with_trace (trace w ++ [store_is_halting]) w))
}.

(** The exit code the SIGCHLD handler works with: [spawn_retval] of the status
    [waitpid] stores for [pid]. *)
Definition reaped_retval (pid : Z) (w : world) : Z :=
  spawn_retval (fst (waitpid pid (env w))).

End Init.

Arguments Done {E A} a w.
Arguments Fatal {E A} code w.

Definition is_pthread_create (e : effect) : bool :=
  match e with call_pthread_create _ _ => true | _ => false end.

Definition is_registry_call (e : effect) : bool :=
  match e with
  | call_service_start _ _ | call_service_stop _ _ | call_service_set_down _
  | call_service_stop_all _ => true
  | _ => false
  end.

Definition is_spawn (e : effect) : bool :=
  match e with
  | call_spawn1 _ _ | call_spawn2_wait _ _ _ => true
  | _ => false
  end.

(** The responses written: the socket, the word, the length asked for and the
    length [send] returned, of every [send]. *)
Fixpoint sent (t : list effect) : list (Z * Z * Z * Z) :=
  match t with
  | [] => []
  | call_send socket word len n :: t' => (socket, word, len, n) :: sent t'
  | _ :: t' => sent t'
  end.

(** The number of halt threads [pthread_create] was asked for. *)
Definition halt_threads_created (t : list effect) : nat :=
  List.length (filter is_pthread_create t).

(** The number of times the halt procedure went past its guard. *)
Definition halt_procedures_run (t : list effect) : nat :=
  List.length
    (filter (fun e => match e with store_is_halting => true | _ => false end) t).

(** The lines logged at a level. *)
Definition logged_at (l : level) (t : list effect) : list effect :=
  filter (fun e => match e, l with
                   | logged LOG_DEBUG _ _, LOG_DEBUG
                   | logged LOG_INFO _ _, LOG_INFO
                   | logged LOG_WARNING _ _, LOG_WARNING
                   | logged LOG_ERROR _ _, LOG_ERROR => true
                   | _, _ => false
                   end) t.



(** ** The decoder of a response word *)

(** Modelled from the spec: the client that decodes a response is not among
    the sources.  "Low bits = response tag; when tag is STATE, high bits carry
    the service's state enum value", the state being what the handler shifted
    left by four. *)
Definition response_tag (word : Z) : Z := Z.land word 15.

Definition response_state (word : Z) : Z := Z.shiftr word 4.

(** The connection of a client is taken out of the poll set. *)
Definition torn_down (fd : Z) (t : list effect) : bool :=
  existsb (fun e => match e with
                    | call_epoll_ctl EPOLL_CTL_DEL fd' _ => fd' =? fd
                    | _ => false
                    end) t.

(** ** A concrete environment, to run the model *)

(** Values for the constants of the missing headers.  The response tags are
    numbered in the order the protocol description lists them, the service
    states as down, pending up, up, pending down; a response is one byte. *)
Definition sample_headers : Headers := {|
  PUPPETIZER_APPLY := "/opt/puppetizer/bin/apply";
  PUPPETIZER_CONTROL_SOCKET := "/var/run/puppetizer.sock";
  ERROR_SPAWN_FAILED := 1;
  ERROR_THREAD_FAILED := 2;
  ERROR_FD_FAILED := 3;
  ERROR_SOCKET_FAILED := 4;
  ERROR_EPOLL_FAILED := 5;
  ERROR_EPOLL_WAIT := 6;
  ERROR_EPOLL_SIGNAL_MESSAGE := 7;
  ERROR_EPOLL_SIGNAL := 8;
  ERROR_BOOT_FAILED := 9;
  CMD_RESPONSE_OK := 0;
  CMD_RESPONSE_FAILED := 1;
  CMD_RESPONSE_ERROR := 2;
  CMD_RESPONSE_FAILED_LOOKUP := 3;
  CMD_RESPONSE_STATE := 4;
  sizeof_control_reponse_t := 1;
  STATE_DOWN := 0;
  STATE_PENDING_DOWN := 3
|}.

Definition STATE_UP : Z := 2.

Definition is_down (s : service) : bool :=
  svc_state s =? @STATE_DOWN sample_headers.

(** A scripted outside world: the exit status of each child, what [send] and
    the halt run of the apply script return, and the next pid or thread
    handle to hand out. *)
Record script := {
  exit_status : list (Z * Z);
  send_returns : Z;
  halt_returns : Z;
  next_id : Z
}.

Definition fresh_id (o : script) : Z * script :=
  (next_id o,
   {| exit_status := exit_status o; send_returns := send_returns o;
      halt_returns := halt_returns o; next_id := next_id o + 1 |}).

Fixpoint status_of (pid : Z) (l : list (Z * Z)) : Z :=
  match l with
  | [] => 0
  | (p, st) :: l' => if p =? pid then st else status_of pid l'
  end.

Definition set_state (st : Z) (s : service) : service :=
  {| svc_name := svc_name s; svc_pid := svc_pid s; svc_state := st |}.

Fixpoint set_state_at (st : Z) (i : nat) (r : registry) : registry :=
  match r, i with
  | [], _ => []
  | s :: r', O => set_state st s :: r'
  | s :: r', S i' => s :: set_state_at st i' r'
  end.

(** [service_stop_all] as the spec has it: it reports how many services were
    not down when it was called, and asks each of them to stop. *)
Definition stop_all (r : registry) : Z * registry :=
  (Z.of_nat (List.length (filter (fun s => negb (is_down s)) r)),
   map (fun s => if is_down s then s
                 else set_state (@STATE_PENDING_DOWN sample_headers) s) r).

Definition scripted : Environment := {|
  os := script;
  spawn1 := fun _ o => fresh_id o;
  spawn2_wait := fun _ _ o => (halt_returns o, o);
  spawn_retval := fun status => status;
  service_start := fun i r o => ((true, set_state_at STATE_UP i r), o);
  service_stop := fun i r o =>
    ((true, set_state_at (@STATE_PENDING_DOWN sample_headers) i r), o);
  service_stop_all := fun r o => (stop_all r, o);
  control_listen := fun _ o => ((S_OK, 4), o);
  waitpid := fun pid o => (status_of pid (exit_status o), o);
  pthread_create := fun o => let '(t, o') := fresh_id o in ((0, t), o');
  send := fun _ _ _ o => (send_returns o, o);
  signalfd := fun o => (3, o);
  epoll_create1 := fun o => (5, o);
  epoll_ctl := fun _ _ _ o => (0, o)
|}.

Definition quiet (exits : list (Z * Z)) : script :=
  {| exit_status := exits; send_returns := 1; halt_returns := 0;
     next_id := 100 |}.

Definition nginx (pid st : Z) : service :=
  {| svc_name := "nginx"; svc_pid := pid; svc_state := st |}.

Definition stop_nonexistent : control_command_t :=
  {| type := CMD_STOP; name := "nonexistent" |}.

Definition stop_nginx : control_command_t :=
  {| type := CMD_STOP; name := "nginx" |}.

Definition child_exited (pid : Z) : signalfd_siginfo :=
  {| ssi_signo := SIGCHLD; ssi_pid := pid |}.

Definition sigchld (pid : Z) : slot :=
  Ready (EV_signal (Some (child_exited pid))).

Definition sigterm : slot :=
  Ready (EV_signal (Some {| ssi_signo := SIGTERM; ssi_pid := 0 |})).

Definition timeout : wakeup := Epoll_ready [].

(** The supervisor as [main] starts it, in the scripted world. *)
Definition boot (r : registry) (exits : list (Z * Z)) (sched : list wakeup)
  : @result scripted (option Z) :=
  @init_boot sample_headers scripted sched
    (@initial_world scripted r (quiet exits)).

(** The world in which [init_boot] enters the loop: the apply script runs as
    pid 100, the descriptors are 3 (signals), 4 (control socket) and 5
    (epoll). *)
Definition entering (r : registry) (exits : list (Z * Z)) : @world scripted :=
  @Build_world scripted false 100 0 r 0%nat
    {| exit_status := exits; send_returns := 1; halt_returns := 0;
       next_id := 101 |}
    [call_spawn1 "/opt/puppetizer/bin/apply" 100;
     call_epoll_ctl EPOLL_CTL_ADD 3 0;
     call_epoll_ctl EPOLL_CTL_ADD 4 0].

(** ** More of [init.c]: the signal mask, schedules, exit codes *)

(** The signals [init_create_signal_fd] adds to the mask of the descriptor
    (init.c, lines 200-204). *)
Definition init_signal_mask : list Z := [SIGTERM; SIGINT; SIGCHLD; SIGHUP].

(** No point of the wake-up lets a halt thread run. *)
Definition thread_free (slots : list slot) : bool :=
  forallb (fun sl => match sl with Halt_thread_runs => false | Ready _ => true end)
    slots.

Definition no_thread_runs (sched : list wakeup) : bool :=
  forallb (fun wk => match wk with
                     | Epoll_ready slots => thread_free slots
                     | Epoll_failed => true
                     end) sched.

Section Exits.

Context {H : Headers} {E : Environment}.

(** Every exit of the process inside [c] carries one of [codes]. *)
Definition exits_within (codes : list Z) {A} (c : M A) : Prop :=
  forall w code w', c w = Fatal code w' -> In code codes.

(** The codes with which [fatal] is called in init.c, [ERROR_BOOT_FAILED]
    apart. *)
Definition fatal_codes : list Z :=
  [ERROR_SPAWN_FAILED; ERROR_THREAD_FAILED; ERROR_FD_FAILED;
   ERROR_SOCKET_FAILED; ERROR_EPOLL_FAILED; ERROR_EPOLL_WAIT].

(** The values the local [exit_code] of [init_loop] is ever given. *)
Definition loop_codes (exit_code : Z) : list Z :=
  [exit_code; ERROR_EPOLL_SIGNAL_MESSAGE; ERROR_EPOLL_SIGNAL;
   ERROR_SOCKET_FAILED].

(** The [break]s of the scan of a wake-up (lines 263-316), with the exit
    code noted before each: a signal record of the wrong size (line 271), a
    signal whose handler returned FALSE (line 275), a client socket that
    could not be added to the poll set (line 287). *)
Definition ends_scan (fd_epoll : Z) (ev : epoll_event) (w : world)
  : option Z :=
  match ev with
  | EV_signal None => Some ERROR_EPOLL_SIGNAL_MESSAGE
  | EV_signal (Some info) =>
      match returned (init_handle_signal info w) with
      | Some false => Some ERROR_EPOLL_SIGNAL
      | _ => None
      end
  | EV_control fd_client =>
      if fst (epoll_ctl fd_epoll EPOLL_CTL_ADD fd_client (env w)) =? -1
      then Some ERROR_SOCKET_FAILED
      else None
  | EV_client _ _ _ => None
  end.

End Exits.

(** The pids [waitpid] was called for. *)
Fixpoint waited (t : list effect) : list Z :=
  match t with
  | [] => []
  | call_waitpid pid _ :: t' => pid :: waited t'
  | _ :: t' => waited t'
  end.

(** Inputs for the runs below. *)
Definition start_nginx : control_command_t :=
  {| type := CMD_START; name := "nginx" |}.

Definition status_nginx : control_command_t :=
  {| type := CMD_STATUS; name := "nginx" |}.

Definition terminate : signalfd_siginfo :=
  {| ssi_signo := SIGTERM; ssi_pid := 0 |}.

Definition hangup : signalfd_siginfo :=
  {| ssi_signo := SIGHUP; ssi_pid := 0 |}.

(** * Properties *)

Section Properties.

Context {H : Headers} {E : Environment}.

#[local] Arguments Z.eqb : simpl nomatch.
#[local] Arguments Z.ltb : simpl nomatch.
#[local] Arguments Z.modulo : simpl never.
#[local] Arguments Z.pow : simpl never.

Lemma skipn_exact {A} (a d : list A) : skipn (List.length a) (a ++ d) = d.
Proof. induction a as [|x a IH]; simpl; [reflexivity | exact IH]. Qed.

Lemma since_app {A} (w : world) (r : result A) (d : list effect) :
  trace (final_world r) = trace w ++ d -> since w r = d.
Proof. unfold since. intros ->. apply skipn_exact. Qed.

Lemma find_service_nth p r i s :
  find_service p r = Some (i, s) -> nth_error r i = Some s /\ p s = true.
Proof.
  revert i. induction r as [|x r IH]; simpl; intros i Hf; [discriminate|].
  destruct (p x) eqn:Hp.
  - inversion Hf; subst. simpl. auto.
  - destruct (find_service p r) as [[j s']|]; [|discriminate].
    inversion Hf; subst. simpl. apply IH. reflexivity.
Qed.

(** Unfolds the monad and the small wrappers around the trace and the
    environment. *)
Ltac unfold_monad :=
  unfold log_debug, log_info, log_warning, log_error, service_find_by_name,
    service_find_by_pid, service_set_down, service_count_by_state in *;
  unfold bind, ret, load, store, set_is_halting, emit, call, call_registry,
    fatal in *.

(** Rewrites [since w r] into the effects the run added, once the run [r] has
    been computed. *)
Ltac trace_done :=
  erewrite since_app;
  [|simpl; rewrite <- ?app_assoc;
    first [reflexivity | symmetry; apply app_nil_r]].

Ltac case_send :=
  match goal with
  | |- context [send ?s ?x ?l ?o] =>
      let n := fresh "n" in let o' := fresh "o'" in
      destruct (send s x l o) as [n o'] eqn:?
  end.

Ltac case_registry_call :=
  match goal with
  | |- context [service_start ?i ?r ?o] =>
      let ok := fresh "ok" in let r' := fresh "r'" in let o' := fresh "o'" in
      destruct (service_start i r o) as [[ok r'] o'] eqn:?; destruct ok
  | |- context [service_stop ?i ?r ?o] =>
      let ok := fresh "ok" in let r' := fresh "r'" in let o' := fresh "o'" in
      destruct (service_stop i r o) as [[ok r'] o'] eqn:?; destruct ok
  end.

(** The handler computed in every case: the lookup, the command, the flag,
    what the registry and [send] answer. *)
Ltac run_handler w command :=
  unfold init_handle_client_command; unfold_monad;
  destruct w as [halting bp ht sv pd o t];
  destruct command as [ty nm]; simpl;
  destruct (find_service (has_name nm) sv) as [[i s]|] eqn:Hfind; simpl;
  [ destruct ty as [ | | | k]; simpl;
    [destruct halting; simpl | destruct halting; simpl | | ]
  | ];
  try case_registry_call; simpl; case_send; simpl.

(** ** The client command handler *)

Ltac case_epoll_ctl :=
  match goal with
  | |- context [epoll_ctl ?e ?op ?fd ?o] =>
      let rc := fresh "rc" in let o' := fresh "o'" in
      destruct (epoll_ctl e op fd o) as [rc o'] eqn:?; simpl;
      destruct (rc =? -1) eqn:?; simpl
  end.

(** C10. For every command frame read from a client connection the handler
    writes exactly one response, of the size of a response word, to that
    connection; a command of no known type, an unknown service name and a
    start or stop refused while halting all get the generic error tag; the
    handler reports failure exactly when [send] returns another length than
    the size of the response (a shorter one, as [send] never returns a longer
    one), and the loop then, and only then, takes the connection out of the
    poll set. *)
Theorem client_command_one_response command socket fd_epoll w :
  exists word n w',
    init_handle_client_command command socket w
      = Done (n =? sizeof_control_reponse_t) w' /\
    sent (since w (init_handle_client_command command socket w))
      = [(socket, word, sizeof_control_reponse_t, n)] /\
    (answered_with_error command w -> word = CMD_RESPONSE_ERROR) /\
    (n <= sizeof_control_reponse_t ->
     ((n =? sizeof_control_reponse_t) = false <-> n < sizeof_control_reponse_t)) /\
    sent (since w (handle_client fd_epoll socket S_OK command w))
      = [(socket, word, sizeof_control_reponse_t, n)] /\
    torn_down socket (since w (handle_client fd_epoll socket S_OK command w))
      = negb (n =? sizeof_control_reponse_t).
Proof.
  unfold handle_client.
  run_handler w command;
    (do 3 eexists; split; [reflexivity|]; split; [trace_done; reflexivity|];
     split; [|split; [intros; rewrite Z.eqb_neq; lia|]]).
  all: try (unfold answered_with_error; simpl;
            intros [Hn | [[k' Hk] | [Hh [Ht | Ht]]]]; congruence).
  all: destruct (n =? sizeof_control_reponse_t) eqn:Hn; simpl;
    [| case_epoll_ctl];
    (split; [trace_done; reflexivity
            |trace_done; simpl; rewrite ?Z.eqb_refl; reflexivity]).
Qed.

(** C5, as the code has it. A command whose service name is not in the table
    is answered with the generic error response; the miss is logged at
    warning level, and the handler calls nothing of the registry and spawns
    nothing. *)
Theorem unknown_service_generic_error command socket w :
  find_service (has_name (name command)) (services w) = None ->
  let r := init_handle_client_command command socket w in
  (exists n, sent (since w r)
             = [(socket, CMD_RESPONSE_ERROR, sizeof_control_reponse_t, n)]) /\
  logged_at LOG_WARNING (since w r)
    = [logged LOG_WARNING "Service %s was not found" [arg_s (name command)]] /\
  filter is_registry_call (since w r) = [] /\
  filter is_spawn (since w r) = [] /\
  services (final_world r) = services w.
Proof.
  intros Hn r. subst r.
  run_handler w command; simpl in Hn; try congruence.
  split; [eexists; trace_done; reflexivity|].
  repeat (split; [trace_done; reflexivity|]). reflexivity.
Qed.

(** ** The signal handler *)


Ltac case_pthread_create :=
  match goal with
  | |- context [pthread_create ?o] =>
      let rc := fresh "rc" in let handle := fresh "handle" in
      let o' := fresh "o'" in
      destruct (pthread_create o) as [[rc handle] o'] eqn:?; simpl;
      destruct (rc =? 0) eqn:?; simpl
  end.

Ltac case_waitpid :=
  match goal with
  | |- context [waitpid ?pid ?o] =>
      let status := fresh "status" in let o' := fresh "o'" in
      destruct (waitpid pid o) as [status o'] eqn:?; simpl
  end.


(** ** What every step keeps *)

Create HintDb keeps.

Section Keeps.

Variable P : world -> Prop.
Hypothesis P_stable : stable P.

Lemma keeps_ret {A} (a : A) : keeps P (ret a).
Proof. intros w Hw. exact Hw. Qed.

Lemma keeps_bind {A B} (c : M A) (k : A -> M B) :
  keeps P c -> (forall a, keeps P (k a)) -> keeps P (bind c k).
Proof.
  intros Hc Hk w Hw. unfold bind. specialize (Hc w Hw).
  destruct (c w) as [a w'|code w']; simpl in *.
  - apply Hk. exact Hc.
  - exact Hc.
Qed.

Lemma keeps_load {A} (f : world -> A) : keeps P (load f).
Proof. intros w Hw. exact Hw. Qed.

Lemma keeps_emit e : not_a_store e = true -> keeps P (emit e).
Proof.
  intros He w Hw. simpl. apply stable_trace; [assumption | | assumption].
  simpl. rewrite He. reflexivity.
Qed.

Lemma keeps_fatal {A} fmt code args : keeps P (@fatal E A fmt code args).
Proof.
  intros w Hw. simpl. apply stable_trace; [assumption | reflexivity | assumption].
Qed.

Lemma keeps_call {A} (f : os -> A * os) traced :
  (forall a, forallb not_a_store (traced a) = true) ->
  keeps P (call f traced).
Proof.
  intros Ht w Hw. unfold call. destruct (f (env w)) as [a o]. simpl.
  apply (stable_trace P P_stable (traced a) (with_env o w) (Ht a)).
  apply stable_env; assumption.
Qed.

Lemma keeps_call_registry {A} (f : registry -> os -> A * registry * os)
    traced :
  (forall a, not_a_store (traced a) = true) ->
  keeps P (call_registry f traced).
Proof.
  intros Ht w Hw. unfold call_registry.
  destruct (f (services w) (env w)) as [[a r] o]. simpl.
  apply (stable_trace P P_stable [traced a] (with_env o (with_services r w))).
  - simpl. rewrite Ht. reflexivity.
  - apply stable_env, stable_services; assumption.
Qed.

Lemma keeps_store (f : world -> world) :
  (forall w, P w -> P (f w)) -> keeps P (store f).
Proof. intros Hf w Hw. simpl. apply Hf. exact Hw. Qed.

#[local] Hint Resolve keeps_ret keeps_load keeps_fatal : keeps.
#[local] Hint Extern 1 (keeps _ (emit _)) =>
  apply keeps_emit; reflexivity : keeps.
#[local] Hint Extern 1 (keeps _ (log_debug _ _)) =>
  apply keeps_emit; reflexivity : keeps.
#[local] Hint Extern 1 (keeps _ (log_info _ _)) =>
  apply keeps_emit; reflexivity : keeps.
#[local] Hint Extern 1 (keeps _ (log_warning _ _)) =>
  apply keeps_emit; reflexivity : keeps.
#[local] Hint Extern 1 (keeps _ (log_error _ _)) =>
  apply keeps_emit; reflexivity : keeps.
#[local] Hint Extern 1 (keeps _ (call _ _)) =>
  apply keeps_call; intros; reflexivity : keeps.
#[local] Hint Extern 1 (keeps _ (call_registry _ _)) =>
  apply keeps_call_registry; intros; reflexivity : keeps.
#[local] Hint Extern 1 (keeps _ (service_find_by_name _)) => apply keeps_load : keeps.
#[local] Hint Extern 1 (keeps _ (service_find_by_pid _)) => apply keeps_load : keeps.
#[local] Hint Extern 1 (keeps _ (service_count_by_state _ _)) =>
  apply keeps_load : keeps.
#[local] Hint Extern 2 (keeps _ (store _)) =>
  apply keeps_store; intros;
  repeat first [ apply stable_pending | apply stable_halt_thread
               | apply stable_services ];
  assumption : keeps.

(** Walks through a monadic body: binds, branches, and the steps the hints
    know. *)
Ltac keeps_walk :=
  repeat match goal with
         | |- keeps _ (bind _ _) => apply keeps_bind; [| intros ?]
         | |- keeps _ (if ?b then _ else _) => destruct b
         | |- keeps _ (match ?x with _ => _ end) => destruct x
         | |- keeps _ _ => solve [auto with keeps]
         end.

Lemma keeps_init_apply : keeps P init_apply.
Proof. unfold init_apply. keeps_walk. Qed.

(** The halt procedure: past the guard, the store together with its line in
    the trace is one step, [stable_store]. *)
Lemma keeps_init_halt : keeps P init_halt.
Proof.
  unfold init_halt. intros w Hw. unfold bind at 1. unfold load.
  destruct (is_halting w) eqn:Hh; [exact Hw|].
  unfold bind at 1. unfold set_is_halting.
  pose proof (stable_store P P_stable w Hh Hw) as Hs.
  revert Hs. generalize
    (with_is_halting true (with_trace (trace w ++ [store_is_halting]) w)).
  intros w1 Hw1.
  assert (Hrest : keeps P
    (bind (log_debug "Running halt action" [])
       (fun _ => bind (call (spawn2_wait PUPPETIZER_APPLY "halt")
                         (fun r => [call_spawn2_wait PUPPETIZER_APPLY "halt" r]))
          (fun r => bind (if r =? 0 then ret tt
                          else log_error "Puppet halt failed with exitcode %d"
                                 [arg_d r])
             (fun _ => bind (call_registry service_stop_all
                               call_service_stop_all)
                (fun n => if 0 <? n mod 256
                          then log_warning "Stopping %d outstanding services."
                                 [arg_d (n mod 256)]
                          else ret tt))))))
    by keeps_walk.
  exact (Hrest w1 Hw1).
Qed.

Lemma keeps_init_halt_thread : keeps P init_halt_thread.
Proof. unfold init_halt_thread. keeps_walk. Qed.

Lemma keeps_service_set_down i : keeps P (service_set_down i).
Proof. unfold service_set_down. keeps_walk. Qed.

#[local] Hint Resolve keeps_init_apply keeps_init_halt keeps_init_halt_thread
  keeps_service_set_down : keeps.

Lemma keeps_halt_thread_runs : keeps P halt_thread_runs.
Proof. unfold halt_thread_runs. keeps_walk. Qed.

Lemma keeps_init_handle_signal info : keeps P (init_handle_signal info).
Proof. unfold init_handle_signal. keeps_walk. Qed.

Lemma keeps_init_handle_client_command command socket :
  keeps P (init_handle_client_command command socket).
Proof. unfold init_handle_client_command. keeps_walk. Qed.

#[local] Hint Resolve keeps_halt_thread_runs keeps_init_handle_signal
  keeps_init_handle_client_command : keeps.

Lemma keeps_handle_client fd_epoll fd status command :
  keeps P (handle_client fd_epoll fd status command).
Proof. unfold handle_client. keeps_walk. Qed.

#[local] Hint Resolve keeps_handle_client : keeps.

Lemma keeps_handle_events fd_epoll slots :
  forall exit_code, keeps P (handle_events fd_epoll slots exit_code).
Proof.
  induction slots as [|sl slots IH]; intros exit_code; simpl.
  - auto with keeps.
  - destruct sl as [[[info|]|fd_client|fd status command]|]; keeps_walk.
Qed.

Lemma keeps_loop fd_epoll sched :
  forall exit_code, keeps P (loop fd_epoll sched exit_code).
Proof.
  induction sched as [|wk sched IH]; intros exit_code; simpl.
  - auto with keeps.
  - destruct wk as [slots|]; [|auto with keeps].
    apply keeps_bind; [auto with keeps | intros _].
    apply keeps_bind; [apply keeps_handle_events | intros ec].
    keeps_walk.
Qed.

Lemma keeps_init_loop_setup : keeps P init_loop_setup.
Proof. unfold init_loop_setup, init_create_signal_fd. keeps_walk. Qed.

Lemma keeps_init_loop_leave fd_control left :
  keeps P (init_loop_leave fd_control left).
Proof.
  unfold init_loop_leave. keeps_walk.
Qed.

Lemma keeps_init_loop sched : keeps P (init_loop sched).
Proof.
  unfold init_loop. apply keeps_bind; [apply keeps_init_loop_setup|].
  intros [fd_control fd_epoll].
  apply keeps_bind; [apply keeps_loop | intros left].
  apply keeps_init_loop_leave.
Qed.

End Keeps.

Lemma stable_boot_pid b : stable (fun w => boot_pid w = b).
Proof. split; intros; assumption. Qed.

Lemma stable_is_halting : stable (fun w => is_halting w = true).
Proof. split; intros; try assumption; reflexivity. Qed.

(** Splits on every branch and every answer of the environment a run depends
    on. *)
Ltac crunch :=
  repeat (simpl;
          match goal with
          | |- context [waitpid ?p ?o] =>
              destruct (waitpid p o) as [? ?] eqn:?
          | |- context [pthread_create ?o] =>
              destruct (pthread_create o) as [[? ?] ?] eqn:?
          | |- context [spawn1 ?p ?o] =>
              destruct (spawn1 p o) as [? ?] eqn:?
          | |- context [spawn2_wait ?p ?a ?o] =>
              destruct (spawn2_wait p a o) as [? ?] eqn:?
          | |- context [service_stop_all ?r ?o] =>
              destruct (service_stop_all r o) as [[? ?] ?] eqn:?
          | |- context [find_service ?p ?r] =>
              destruct (find_service p r) as [[? ?]|] eqn:?
          | |- context [?a =? ?b] => destruct (a =? b) eqn:?
          | |- context [?a <? ?b] => destruct (a <? b) eqn:?
          | |- context [if ?b then _ else _] => destruct b eqn:?
          end).


(** ** The halt procedure *)

(** C9, as the code has it. When the halt procedure runs (the flag was not
    set), it sets [is_halting], runs the apply script with the halt directive
    and waits for it, logs an error when the script returned non-zero and
    goes on all the same, calls stop-all on the registry, and logs a warning
    with the count stop-all returned, kept in eight bits, when that count is
    greater than zero. *)
Theorem halt_procedure_steps w :
  is_halting w = false ->
  exists rc n w',
    init_halt w = Done tt w' /\
    is_halting w' = true /\
    rc = fst (spawn2_wait PUPPETIZER_APPLY "halt" (env w)) /\
    (n, services w')
      = fst (service_stop_all (services w)
               (snd (spawn2_wait PUPPETIZER_APPLY "halt" (env w)))) /\
    since w (init_halt w)
      = [store_is_halting;
         logged LOG_DEBUG "Running halt action" [];
         call_spawn2_wait PUPPETIZER_APPLY "halt" rc]
        ++ (if rc =? 0 then []
            else [logged LOG_ERROR "Puppet halt failed with exitcode %d"
                    [arg_d rc]])
        ++ [call_service_stop_all n]
        ++ (if 0 <? n mod 256
            then [logged LOG_WARNING "Stopping %d outstanding services."
                    [arg_d (n mod 256)]]
            else []).
Proof.
  intros Hh. unfold init_halt. unfold_monad.
  destruct w as [halting bp ht sv pd o t]. simpl in *. subst halting.
  crunch;
    repeat match goal with
           | Hq : (_, _) = (_, _) |- _ => inversion Hq; subst; clear Hq
           end;
    do 3 eexists;
    (split; [reflexivity|]); (split; [reflexivity|]);
    (split; [reflexivity|]); (split; [reflexivity|]);
    trace_done;
    repeat match goal with
           | Hq : ?c = _ |- context [if ?c then _ else _] => rewrite Hq
           end;
    reflexivity.
Qed.

(** ** The response word *)

Lemma shifted_state_tag_disjoint S tag :
  0 <= tag < 16 -> Z.land (Z.shiftl S 4) tag = 0.
Proof.
  intros Ht. apply Z.bits_inj'. intros n Hn.
  rewrite Z.land_spec, Z.bits_0.
  destruct (Z.ltb_spec n 4) as [Hlt | Hge].
  - rewrite Z.shiftl_spec_low by lia. reflexivity.
  - replace tag with (tag mod 2 ^ 4) by (apply Z.mod_small; lia).
    rewrite Z.mod_pow2_bits_high by lia. apply andb_false_r.
Qed.

Lemma status_response_sum S :
  0 <= CMD_RESPONSE_STATE < 16 ->
  0 <= S < 2 ^ (8 * sizeof_control_reponse_t - 4) ->
  status_response S = S * 16 + CMD_RESPONSE_STATE /\
  0 <= status_response S < 2 ^ (8 * sizeof_control_reponse_t).
Proof.
  intros Ht Hs. unfold status_response, to_control_reponse_t.
  assert (Hk : 0 <= 8 * sizeof_control_reponse_t - 4).
  { destruct (Z.ltb_spec (8 * sizeof_control_reponse_t - 4) 0) as [Hneg|];
      [|assumption].
    rewrite Z.pow_neg_r in Hs by assumption. lia. }
  assert (Hp : 2 ^ (8 * sizeof_control_reponse_t)
               = 16 * 2 ^ (8 * sizeof_control_reponse_t - 4)).
  { replace (8 * sizeof_control_reponse_t)
      with (4 + (8 * sizeof_control_reponse_t - 4)) at 1 by lia.
    rewrite Z.pow_add_r by lia. reflexivity. }
  rewrite <- Z.lxor_lor by (apply shifted_state_tag_disjoint; assumption).
  rewrite <- Z.add_nocarry_lxor
    by (apply shifted_state_tag_disjoint; assumption).
  rewrite Z.shiftl_mul_pow2 by lia. change (2 ^ 4) with 16.
  rewrite Z.mod_small by lia. lia.
Qed.

(** C7. The state response for a state value [S] that fits above the tag is
    one word of the response width with [S] in the bits from the fourth up
    and the state tag in the four low bits; decoding that word gives back the
    tag [STATE] and [S] itself. *)
Theorem status_response_round_trip S :
  0 <= CMD_RESPONSE_STATE < 16 ->
  0 <= S < 2 ^ (8 * sizeof_control_reponse_t - 4) ->
  status_response S = Z.shiftl S 4 + CMD_RESPONSE_STATE /\
  0 <= status_response S < 2 ^ (8 * sizeof_control_reponse_t) /\
  response_tag (status_response S) = CMD_RESPONSE_STATE /\
  response_state (status_response S) = S.
Proof.
  intros Ht Hs. destruct (status_response_sum S Ht Hs) as [Heq Hrange].
  rewrite Heq. unfold response_tag, response_state.
  rewrite Z.shiftl_mul_pow2 by lia. change (2 ^ 4) with 16.
  repeat split; try lia.
  - change 15 with (Z.ones 4). rewrite Z.land_ones by lia.
    change (2 ^ 4) with 16. rewrite Z.add_comm, Z.mod_add by lia.
    apply Z.mod_small. lia.
  - rewrite Z.shiftr_div_pow2 by lia. change (2 ^ 4) with 16.
    rewrite Z.add_comm, Z.div_add by lia. rewrite Z.div_small by lia. lia.
Qed.

(** The state response decodes to the state tag and to the state it was
    built from. *)
Lemma status_response_decoded S :
  0 <= CMD_RESPONSE_STATE < 16 ->
  0 <= S < 2 ^ (8 * sizeof_control_reponse_t - 4) ->
  response_tag (status_response S) = CMD_RESPONSE_STATE /\
  response_state (status_response S) = S.
Proof.
  intros Ht Hs. destruct (status_response_sum S Ht Hs) as [Heq Hrange].
  rewrite Heq. unfold response_tag, response_state. split.
  - change 15 with (Z.ones 4). rewrite Z.land_ones by lia.
    change (2 ^ 4) with 16. rewrite Z.add_comm, Z.mod_add by lia.
    apply Z.mod_small. lia.
  - rewrite Z.shiftr_div_pow2 by lia. change (2 ^ 4) with 16.
    rewrite Z.add_comm, Z.div_add by lia. rewrite Z.div_small by lia. lia.
Qed.

(** C3. While [is_halting] is set, a start or a stop command is answered with
    the error response and the handler calls nothing of the registry, whose
    table stays as it was; a status command for a service of the table is
    still answered, with the word built from the state the table holds for
    that service, and that word is a state response for that state: it
    decodes to the tag [STATE] and to the state of the table, the tag being
    below 16 and the state fitting in the bits above it. *)
Theorem halt_gating command socket w :
  is_halting w = true ->
  let r := init_handle_client_command command socket w in
  (type command = CMD_START \/ type command = CMD_STOP ->
     (exists n, sent (since w r)
                = [(socket, CMD_RESPONSE_ERROR, sizeof_control_reponse_t, n)]) /\
     filter is_registry_call (since w r) = [] /\
     services (final_world r) = services w) /\
  (type command = CMD_STATUS ->
   forall i s,
     find_service (has_name (name command)) (services w) = Some (i, s) ->
     (exists n, sent (since w r)
                = [(socket, status_response (svc_state s),
                    sizeof_control_reponse_t, n)]) /\
     nth_error (services w) i = Some s /\
     filter is_registry_call (since w r) = [] /\
     services (final_world r) = services w /\
     (0 <= CMD_RESPONSE_STATE < 16 ->
      0 <= svc_state s < 2 ^ (8 * sizeof_control_reponse_t - 4) ->
      response_tag (status_response (svc_state s)) = CMD_RESPONSE_STATE /\
      response_state (status_response (svc_state s)) = svc_state s)).
Proof.
  intros Hh r. subst r. split.
  - intros Ht.
    run_handler w command; simpl in Hh; try discriminate;
      try (destruct Ht; discriminate);
      (split; [eexists; trace_done; reflexivity|]);
      (split; [trace_done; reflexivity | reflexivity]).
  - intros Ht i0 s0 Hf.
    pose proof (find_service_nth _ _ _ _ Hf) as [Hnth _].
    run_handler w command; simpl in Hh, Ht, Hf, Hnth; try discriminate;
      rewrite Hfind in Hf; inversion Hf; subst;
      (split; [eexists; trace_done; reflexivity|]);
      (split; [exact Hnth|]);
      (split; [trace_done; reflexivity|]);
      (split; [reflexivity|]);
      apply status_response_decoded.
Qed.

(** ** The loop *)

(** One wake-up of the loop, spelled out. *)
Lemma loop_step fd_epoll slots rest exit_code w :
  loop fd_epoll (Epoll_ready slots :: rest) exit_code w
  = match handle_events fd_epoll slots exit_code
            (with_trace (trace w ++ [logged LOG_DEBUG "loop" []]) w) with
    | Done code w1 =>
        if is_halting w1
        then Done (Some code)
               (if count_by_state STATE_DOWN true (services w1) =? 0
                then with_trace
                       (trace w1
                        ++ [logged LOG_INFO
                              "No more services running, exitting" []]) w1
                else w1)
        else loop fd_epoll rest code w1
    | Fatal code w1 => Fatal code w1
    end.
Proof.
  simpl. unfold_monad.
  destruct (handle_events fd_epoll slots exit_code _) as [code w1|code w1];
    [|reflexivity].
  destruct (is_halting w1); [|reflexivity].
  destruct (count_by_state STATE_DOWN true (services w1) =? 0); reflexivity.
Qed.

(** When [is_halting] is set at the end of a wake-up the loop is left, whatever
    the table of services holds: the count of services that are not down only
    decides whether a line is logged. *)
Lemma loop_left_when_halting fd_epoll slots rest exit_code w :
  is_halting w = true ->
  (exists code w', loop fd_epoll (Epoll_ready slots :: rest) exit_code w
                   = Fatal code w') \/
  (exists code w', loop fd_epoll (Epoll_ready slots :: rest) exit_code w
                   = Done (Some code) w' /\ is_halting w' = true /\
                     services w'
                     = services (final_world
                         (handle_events fd_epoll slots exit_code
                            (with_trace
                               (trace w ++ [logged LOG_DEBUG "loop" []]) w)))).
Proof.
  intros Hh. rewrite loop_step.
  pose proof (keeps_handle_events _ stable_is_halting fd_epoll slots exit_code
                (with_trace (trace w ++ [logged LOG_DEBUG "loop" []]) w) Hh)
    as Hkeep.
  destruct (handle_events fd_epoll slots exit_code _) as [ec w1|code w1];
    simpl in Hkeep.
  - right. rewrite Hkeep.
    destruct (count_by_state STATE_DOWN true (services w1) =? 0);
      do 2 eexists; (split; [reflexivity | split; [exact Hkeep|reflexivity]]).
  - left. do 2 eexists. reflexivity.
Qed.

(** While [is_halting] is not set, wake-ups without events leave the loop
    waiting. *)
Lemma loop_idle fd_epoll n :
  forall exit_code w,
    is_halting w = false ->
    exists w',
      loop fd_epoll (repeat (Epoll_ready []) n) exit_code w = Done None w' /\
      is_halting w' = false.
Proof.
  induction n as [|n IH]; intros exit_code w Hh.
  - exists w. split; [reflexivity | exact Hh].
  - change (repeat (Epoll_ready []) (S n))
      with (Epoll_ready [] :: repeat (Epoll_ready []) n).
    rewrite loop_step. simpl. rewrite Hh. apply IH. exact Hh.
Qed.

(** A wake-up after which [is_halting] is still not set is followed by the
    next one, with the [exit_code] the wake-up left. *)
Lemma loop_goes_on fd_epoll slots rest exit_code w code w1 :
  handle_events fd_epoll slots exit_code
    (with_trace (trace w ++ [logged LOG_DEBUG "loop" []]) w) = Done code w1 ->
  is_halting w1 = false ->
  loop fd_epoll (Epoll_ready slots :: rest) exit_code w
    = loop fd_epoll rest code w1.
Proof.
  intros He Hh. rewrite loop_step, He, Hh. reflexivity.
Qed.

(** A non-zero exit of the boot script makes the handler fail and the loop
    note [ERROR_EPOLL_SIGNAL]; the [break] that follows leaves the scan of the
    events only, and with [is_halting] not set the loop waits again. *)
Lemma boot_failure_keeps_waiting fd_epoll n exit_code w :
  is_halting w = false ->
  reaped_retval (boot_pid w) w <> 0 ->
  exists w',
    loop fd_epoll
      (Epoll_ready
         [Ready (EV_signal (Some {| ssi_signo := SIGCHLD;
                                    ssi_pid := boot_pid w |}))]
       :: repeat (Epoll_ready []) n) exit_code w = Done None w' /\
    is_halting w' = false.
Proof.
  intros Hh Hret. unfold reaped_retval in Hret.
  destruct (waitpid (boot_pid w) (env w)) as [status o'] eqn:Hw.
  simpl in Hret. apply Z.eqb_neq in Hret.
  rewrite loop_step. simpl. unfold init_handle_signal. unfold_monad. simpl.
  rewrite Hw. simpl. rewrite Z.eqb_refl, Hret. simpl. rewrite Hh.
  apply loop_idle. exact Hh.
Qed.

(** The flag is never taken back. init.c assigns [is_halting] at one place
    only, and the value it assigns is [TRUE]: once the flag is set, it is
    still set after every signal, every client command, every wake-up of the
    loop and the whole of [init_loop], whatever the schedule and whatever the
    environment answers, also where the process exits. *)
Theorem is_halting_stays_set info command socket fd_epoll sched exit_code w :
  is_halting w = true ->
  is_halting (final_world (init_handle_signal info w)) = true /\
  is_halting (final_world (init_handle_client_command command socket w))
    = true /\
  is_halting (final_world (loop fd_epoll sched exit_code w)) = true /\
  is_halting (final_world (init_loop sched w)) = true.
Proof.
  intros Hh. repeat split.
  - apply (keeps_init_handle_signal _ stable_is_halting). exact Hh.
  - apply (keeps_init_handle_client_command _ stable_is_halting). exact Hh.
  - apply (keeps_loop _ stable_is_halting). exact Hh.
  - apply (keeps_init_loop _ stable_is_halting). exact Hh.
Qed.

(** Unknown PID reap. A SIGCHLD for a pid in the range of [pid_t] (where
    the [uint32_t] field [ssi_pid] and the [pid_t] handed to [waitpid] and to
    the registry are the same number) that is neither the one recorded for
    the boot script nor the pid of a service is reaped and logged, and
    nothing else: the table, the flag and the halt threads stay as they
    were. *)
Theorem unknown_pid_reap pid w :
  0 <= pid < 2 ^ 31 ->
  boot_pid w <> pid ->
  find_service (has_pid pid) (services w) = None ->
  returned (init_handle_signal {| ssi_signo := SIGCHLD; ssi_pid := pid |} w)
    = Some true /\
  since w (init_handle_signal {| ssi_signo := SIGCHLD; ssi_pid := pid |} w)
    = [call_waitpid pid (fst (waitpid pid (env w)));
       logged LOG_INFO "Reaped zombie PID:%d" [arg_d pid]] /\
  services
    (final_world
       (init_handle_signal {| ssi_signo := SIGCHLD; ssi_pid := pid |} w))
    = services w /\
  is_halting
    (final_world
       (init_handle_signal {| ssi_signo := SIGCHLD; ssi_pid := pid |} w))
    = is_halting w /\
  pending
    (final_world
       (init_handle_signal {| ssi_signo := SIGCHLD; ssi_pid := pid |} w))
    = pending w.
Proof.
  intros _ Hne Hf. apply Z.eqb_neq in Hne.
  unfold init_handle_signal. unfold_monad.
  destruct w as [halting bp ht sv pd o t]. simpl in *.
  case_waitpid. rewrite Hne. simpl. rewrite Hf. simpl.
  split; [reflexivity|]. split; [trace_done; reflexivity|].
  repeat split.
Qed.

(** Shutdown completion. Once halting has begun and no service is left that
    is not down, the next wake-up, even one without any event, ends the
    loop with the exit code noted so far. *)
Theorem shutdown_completion fd_epoll rest exit_code w :
  is_halting w = true ->
  count_by_state STATE_DOWN true (services w) = 0 ->
  returned (loop fd_epoll (Epoll_ready [] :: rest) exit_code w)
    = Some (Some exit_code) /\
  since w (loop fd_epoll (Epoll_ready [] :: rest) exit_code w)
    = [logged LOG_DEBUG "loop" [];
       logged LOG_INFO "No more services running, exitting" []].
Proof.
  intros Hh Hc. rewrite loop_step. simpl. rewrite Hh, Hc. simpl.
  split; [reflexivity|]. trace_done. reflexivity.
Qed.

(** ** The signal handler, signal by signal *)

Ltac eqb_facts :=
  repeat match goal with
         | Hq : (_ =? _) = true |- _ => apply Z.eqb_eq in Hq
         | Hq : (_ =? _) = false |- _ => apply Z.eqb_neq in Hq
         end.

(** SIGTERM, SIGINT and SIGHUP while halting are ignored: the handler logs
    one warning and changes nothing else. *)
Theorem signals_ignored_while_halting info w :
  is_halting w = true ->
  In (ssi_signo info) [SIGTERM; SIGINT; SIGHUP] ->
  exists line,
    init_handle_signal info w
    = Done true (with_trace (trace w ++ [logged LOG_WARNING line []]) w).
Proof.
  intros Hh Hin. destruct info as [signo pid]. simpl in Hin.
  unfold init_handle_signal. unfold_monad. simpl.
  destruct Hin as [<- | [<- | [<- | []]]]; simpl; rewrite Hh;
    eexists; reflexivity.
Qed.

(** SIGTERM or SIGINT while not halting: [pthread_create] is called exactly
    once. When it succeeds the handle it stored is the one in [halt_thread]
    and the handler returns TRUE; when it fails the process exits with
    [ERROR_THREAD_FAILED]. *)
Theorem term_signal_asks_for_one_thread info w :
  is_halting w = false ->
  ssi_signo info = SIGTERM \/ ssi_signo info = SIGINT ->
  halt_threads_created (since w (init_handle_signal info w)) = 1%nat /\
  (if fst (fst (pthread_create (env w))) =? 0
   then returned (init_handle_signal info w) = Some true /\
        halt_thread (final_world (init_handle_signal info w))
        = snd (fst (pthread_create (env w)))
   else exists w', init_handle_signal info w = Fatal ERROR_THREAD_FAILED w').
Proof.
  intros Hh Hs. destruct info as [signo pid]. simpl in Hs.
  unfold init_handle_signal, init_halt_thread, halt_threads_created.
  unfold_monad. destruct w as [halting bp ht sv pd o t]. simpl in *.
  subst halting.
  destruct Hs as [-> | ->]; simpl; case_pthread_create;
    (split; [trace_done; reflexivity|]); repeat split; eauto.
Qed.

(** SIGHUP while not halting runs the apply script again: [spawn1] is called
    once; the pid it returns is not recorded ([boot_pid] keeps its value);
    when the spawn fails the process exits with [ERROR_SPAWN_FAILED]. *)
Theorem sighup_runs_apply info w :
  is_halting w = false ->
  ssi_signo info = SIGHUP ->
  filter is_spawn (since w (init_handle_signal info w))
    = [call_spawn1 PUPPETIZER_APPLY (fst (spawn1 PUPPETIZER_APPLY (env w)))] /\
  boot_pid (final_world (init_handle_signal info w)) = boot_pid w /\
  services (final_world (init_handle_signal info w)) = services w /\
  is_halting (final_world (init_handle_signal info w)) = false /\
  halt_threads_created (since w (init_handle_signal info w)) = 0%nat /\
  (if fst (spawn1 PUPPETIZER_APPLY (env w)) =? -1
   then exists w', init_handle_signal info w = Fatal ERROR_SPAWN_FAILED w'
   else returned (init_handle_signal info w) = Some true).
Proof.
  intros Hh Hs. destruct info as [signo pid]. simpl in Hs. subst signo.
  unfold init_handle_signal, init_apply, halt_threads_created.
  unfold_monad. destruct w as [halting bp ht sv pd o t]. simpl in *.
  subst halting.
  crunch;
    (split; [trace_done; reflexivity|]);
    (do 3 (split; [reflexivity|]));
    (split; [trace_done; reflexivity|]); eauto.
Qed.

(** The handler acts on exactly the signals of the mask: each of them leaves
    at least one line or call in the trace, and any other signal number is
    taken without a trace and without a change. *)
Theorem handler_acts_on_the_mask info w :
  (In (ssi_signo info) init_signal_mask ->
   exists e d, since w (init_handle_signal info w) = e :: d) /\
  (~ In (ssi_signo info) init_signal_mask ->
   init_handle_signal info w = Done true w).
Proof.
  destruct info as [signo pid]. unfold init_signal_mask. simpl. split.
  - intros Hin.
    unfold init_handle_signal, init_halt_thread, init_apply. unfold_monad.
    destruct w as [halting bp ht sv pd o t].
    destruct Hin as [<- | [<- | [<- | [<- | []]]]]; simpl;
      crunch; trace_done; do 2 eexists; reflexivity.
  - intros Hout.
    assert (Hc : signo <> SIGCHLD)
      by (intros ->; apply Hout; right; right; left; reflexivity).
    assert (Ht : signo <> SIGTERM)
      by (intros ->; apply Hout; left; reflexivity).
    assert (Hi : signo <> SIGINT)
      by (intros ->; apply Hout; right; left; reflexivity).
    assert (Hu : signo <> SIGHUP)
      by (intros ->; apply Hout; right; right; right; left; reflexivity).
    apply Z.eqb_neq in Hc, Ht, Hi, Hu.
    unfold init_handle_signal. simpl. rewrite Hc, Ht, Hi, Hu. reflexivity.
Qed.

(** The handler reports failure in one case only: a SIGCHLD that carries the
    pid recorded for the boot script, with a non-zero exit code. *)
Theorem handler_fails_only_on_boot_failure info w :
  returned (init_handle_signal info w) = Some false <->
  ssi_signo info = SIGCHLD /\
  boot_pid w = ssi_pid info /\
  reaped_retval (ssi_pid info) w <> 0.
Proof.
  destruct info as [signo pid].
  unfold init_handle_signal, init_halt_thread, init_apply, reaped_retval.
  unfold_monad. destruct w as [halting bp ht sv pd o t]. simpl.
  crunch; eqb_facts; simpl;
    (split; [intros Hr; try discriminate Hr | intros (Hs & Hb & Hr)]);
    try (exfalso; congruence); try (repeat split; congruence).
Qed.

(** ** Client connections, case by case *)

(** A client whose read ended or failed gets no response and no command is
    run for it: its descriptor is taken out of the poll set and shut down,
    and when taking it out fails the process exits with
    [ERROR_EPOLL_FAILED]. The table and the flag are not touched. *)
Theorem client_gone_is_deregistered fd_epoll fd status command w :
  status <> S_OK ->
  sent (since w (handle_client fd_epoll fd status command w)) = [] /\
  filter is_registry_call
    (since w (handle_client fd_epoll fd status command w)) = [] /\
  torn_down fd (since w (handle_client fd_epoll fd status command w)) = true /\
  services (final_world (handle_client fd_epoll fd status command w))
    = services w /\
  is_halting (final_world (handle_client fd_epoll fd status command w))
    = is_halting w /\
  (if fst (epoll_ctl fd_epoll EPOLL_CTL_DEL fd (env w)) =? -1
   then exists w', handle_client fd_epoll fd status command w
                   = Fatal ERROR_EPOLL_FAILED w'
   else returned (handle_client fd_epoll fd status command w) = Some tt /\
        In (call_shutdown fd)
          (since w (handle_client fd_epoll fd status command w))).
Proof.
  intros Hs. unfold handle_client. unfold_monad.
  destruct w as [halting bp ht sv pd o t].
  destruct status as [ | | k]; [contradiction | | ]; simpl;
    destruct (epoll_ctl fd_epoll EPOLL_CTL_DEL fd o) as [rc o'] eqn:Hctl;
    simpl; destruct (rc =? -1) eqn:Hrc; simpl;
    (split; [trace_done; reflexivity|]);
    (split; [trace_done; reflexivity|]);
    (split; [trace_done; simpl; rewrite Z.eqb_refl; reflexivity|]);
    (split; [reflexivity|]); (split; [reflexivity|]);
    eauto; (split; [reflexivity|]); trace_done; simpl; auto.
Qed.

(** A client command never reaches the globals of the supervisor: whatever
    the command, [init_handle_client_command] leaves [is_halting],
    [boot_pid], [halt_thread] and the waiting halt threads as they were, and
    does not call [init_halt_thread]. *)
Theorem client_command_changes_no_global command socket w :
  is_halting (final_world (init_handle_client_command command socket w))
    = is_halting w /\
  boot_pid (final_world (init_handle_client_command command socket w))
    = boot_pid w /\
  halt_thread (final_world (init_handle_client_command command socket w))
    = halt_thread w /\
  pending (final_world (init_handle_client_command command socket w))
    = pending w /\
  halt_threads_created
    (since w (init_handle_client_command command socket w)) = 0%nat.
Proof.
  unfold halt_threads_created.
  run_handler w command;
    (do 4 (split; [reflexivity|])); trace_done; reflexivity.
Qed.

(** While not halting, a start (a stop) command for a service of the table is
    handed to [service_start] ([service_stop]) exactly once, for that
    service; the response is OK when the call reports success and FAILED
    otherwise, and the table is left as the call returned it. *)
Theorem start_stop_delegated command socket i s w :
  is_halting w = false ->
  find_service (has_name (name command)) (services w) = Some (i, s) ->
  (type command = CMD_START ->
   filter is_registry_call
     (since w (init_handle_client_command command socket w))
   = [call_service_start i
        (fst (fst (service_start i (services w) (env w))))] /\
   (exists n,
      sent (since w (init_handle_client_command command socket w))
      = [(socket,
          if fst (fst (service_start i (services w) (env w)))
          then CMD_RESPONSE_OK else CMD_RESPONSE_FAILED,
          sizeof_control_reponse_t, n)]) /\
   services (final_world (init_handle_client_command command socket w))
   = snd (fst (service_start i (services w) (env w)))) /\
  (type command = CMD_STOP ->
   filter is_registry_call
     (since w (init_handle_client_command command socket w))
   = [call_service_stop i
        (fst (fst (service_stop i (services w) (env w))))] /\
   (exists n,
      sent (since w (init_handle_client_command command socket w))
      = [(socket,
          if fst (fst (service_stop i (services w) (env w)))
          then CMD_RESPONSE_OK else CMD_RESPONSE_FAILED,
          sizeof_control_reponse_t, n)]) /\
   services (final_world (init_handle_client_command command socket w))
   = snd (fst (service_stop i (services w) (env w)))).
Proof.
  intros Hh Hf.
  unfold init_handle_client_command. unfold_monad.
  destruct w as [halting bp ht sv pd o t]. destruct command as [ty nm].
  simpl in *. subst halting. rewrite Hf. simpl.
  split; intros ->; simpl.
  - destruct (service_start i sv o) as [[ok table] o'] eqn:Hcall. simpl.
    case_send. simpl.
    split; [trace_done; reflexivity|].
    split; [eexists; trace_done; reflexivity | reflexivity].
  - destruct (service_stop i sv o) as [[ok table] o'] eqn:Hcall. simpl.
    case_send. simpl.
    split; [trace_done; reflexivity|].
    split; [eexists; trace_done; reflexivity | reflexivity].
Qed.

(** A status command is answered from the table whether halting or not, and
    only reads: the response is the state response for the state the table
    holds, nothing of the registry is called and the table is unchanged. *)
Theorem status_only_reads command socket i s w :
  type command = CMD_STATUS ->
  find_service (has_name (name command)) (services w) = Some (i, s) ->
  (exists n,
     sent (since w (init_handle_client_command command socket w))
     = [(socket, status_response (svc_state s),
         sizeof_control_reponse_t, n)]) /\
  filter is_registry_call
    (since w (init_handle_client_command command socket w)) = [] /\
  services (final_world (init_handle_client_command command socket w))
  = services w /\
  env (final_world (init_handle_client_command command socket w))
  = snd (send socket (status_response (svc_state s))
           sizeof_control_reponse_t (env w)).
Proof.
  intros Ht Hf.
  unfold init_handle_client_command. unfold_monad.
  destruct w as [halting bp ht sv pd o t]. destruct command as [ty nm].
  simpl in *. subst ty. rewrite Hf. simpl. case_send. simpl.
  split; [eexists; trace_done; reflexivity|].
  split; [trace_done; reflexivity|]. split; reflexivity.
Qed.

(** ** Who sets the flag *)

Lemma final_world_bind {A B} (c : M A) (k : A -> M B) w :
  final_world (bind c k w)
  = match c w with
    | Done a w' => final_world (k a w')
    | Fatal _ w' => w'
    end.
Proof. unfold bind. destruct (c w); reflexivity. Qed.

Lemma signal_keeps_flag info w :
  is_halting (final_world (init_handle_signal info w)) = is_halting w.
Proof.
  unfold init_handle_signal, init_halt_thread, init_apply. unfold_monad.
  destruct w as [halting bp ht sv pd o t]. destruct info as [signo pid].
  simpl. crunch; reflexivity.
Qed.

Lemma client_keeps_flag fd_epoll fd status command w :
  is_halting (final_world (handle_client fd_epoll fd status command w))
  = is_halting w.
Proof.
  destruct status as [ | | k].
  - unfold handle_client. run_handler w command;
      destruct (n =? sizeof_control_reponse_t); simpl;
      try case_epoll_ctl; reflexivity.
  - unfold handle_client. unfold_monad. simpl. case_epoll_ctl; reflexivity.
  - unfold handle_client. unfold_monad. simpl. case_epoll_ctl; reflexivity.
Qed.

Lemma events_keep_flag fd_epoll slots :
  forall exit_code w,
    thread_free slots = true ->
    is_halting (final_world (handle_events fd_epoll slots exit_code w))
    = is_halting w.
Proof.
  induction slots as [|sl slots IH]; intros exit_code w Hfree;
    [reflexivity|].
  simpl in Hfree. destruct sl as [ev|]; [|discriminate].
  destruct ev as [[info|]|fd_client|fd status command]; simpl.
  - rewrite final_world_bind.
    pose proof (signal_keeps_flag info w) as Hs.
    destruct (init_handle_signal info w) as [[|] w1|code w1]; simpl in *;
      [rewrite IH by exact Hfree | |]; exact Hs.
  - reflexivity.
  - unfold_monad.
    destruct (epoll_ctl fd_epoll EPOLL_CTL_ADD fd_client (env w))
      as [rc o'] eqn:Hctl.
    simpl. destruct (rc =? -1); simpl; [reflexivity|].
    rewrite IH by exact Hfree. reflexivity.
  - rewrite final_world_bind.
    pose proof (client_keeps_flag fd_epoll fd status command w) as Hc.
    destruct (handle_client fd_epoll fd status command w) as [[] w1|code w1];
      simpl in *; [rewrite IH by exact Hfree|]; exact Hc.
Qed.

(** Only the halt thread sets [is_halting]. Over a schedule in which no halt
    thread gets to run, every signal and every client event leaves the flag
    as it was; so, starting unset, the loop is never left, whatever signals
    arrive, SIGTERM included: it waits on, or the process exits in [fatal]. *)
Theorem flag_set_only_by_halt_thread fd_epoll sched :
  forall exit_code w,
    no_thread_runs sched = true ->
    is_halting (final_world (loop fd_epoll sched exit_code w)) = is_halting w /\
    (is_halting w = false ->
     returned (loop fd_epoll sched exit_code w) = Some None \/
     returned (loop fd_epoll sched exit_code w) = None).
Proof.
  induction sched as [|wk sched IH]; intros exit_code w Hfree.
  - simpl. split; [reflexivity | intros _; left; reflexivity].
  - simpl in Hfree. destruct wk as [slots|].
    + apply andb_prop in Hfree as [Hslots Hrest]. rewrite loop_step.
      pose proof (events_keep_flag fd_epoll slots exit_code
                    (with_trace (trace w ++ [logged LOG_DEBUG "loop" []]) w)
                    Hslots) as Hev.
      destruct (handle_events fd_epoll slots exit_code _) as [code w1|code w1];
        simpl in Hev.
      * destruct (is_halting w1) eqn:Hw1.
        -- split; [|intros Hw; congruence].
           destruct (count_by_state STATE_DOWN true (services w1) =? 0);
             simpl; congruence.
        -- destruct (IH code w1 Hrest) as [Hflag Hret].
           split; [congruence | intros _; apply Hret; exact Hw1].
      * split; [exact Hev | intros _; right; reflexivity].
    + simpl. split; [reflexivity | intros _; right; reflexivity].
Qed.

(** ** Exit codes *)

Lemma loop_codes_step exit_code code c :
  In code (loop_codes exit_code) -> In c (loop_codes code) ->
  In c (loop_codes exit_code).
Proof.
  unfold loop_codes. simpl. intros Hcode Hc.
  destruct Hc as [<- | Hc]; [exact Hcode | right; exact Hc].
Qed.

Lemma events_codes fd_epoll slots :
  forall exit_code w code w',
    handle_events fd_epoll slots exit_code w = Done code w' ->
    In code (loop_codes exit_code).
Proof.
  unfold loop_codes.
  induction slots as [|sl slots IH]; intros exit_code w code w' Hrun;
    simpl in Hrun.
  - inversion Hrun. left. reflexivity.
  - destruct sl as [[[info|]|fd_client|fd status command]|];
      unfold bind in Hrun.
    + destruct (init_handle_signal info w) as [[|] w1|c1 w1];
        [eapply IH; exact Hrun | | discriminate].
      inversion Hrun. simpl. auto.
    + unfold_monad. inversion Hrun. simpl. auto.
    + unfold call in Hrun.
      destruct (epoll_ctl fd_epoll EPOLL_CTL_ADD fd_client (env w))
        as [rc o'].
      destruct (rc =? -1); [|eapply IH; exact Hrun].
      unfold_monad. inversion Hrun. simpl. auto.
    + destruct (handle_client fd_epoll fd status command w) as [[] w1|c1 w1];
        [eapply IH; exact Hrun | discriminate].
    + destruct (halt_thread_runs w) as [[] w1|c1 w1];
        [eapply IH; exact Hrun | discriminate].
Qed.

(** When the loop is left, halting has begun, and the exit code it hands
    back is the one it started with or one of the three the scan of the
    events notes: a bad signal record, a failed boot script, a client that
    could not be registered. *)
Lemma loop_returns_when_halting fd_epoll sched :
  forall exit_code w code w',
    loop fd_epoll sched exit_code w = Done (Some code) w' ->
    is_halting w' = true /\ In code (loop_codes exit_code).
Proof.
  induction sched as [|wk sched IH]; intros exit_code w code w' Hrun.
  - discriminate.
  - destruct wk as [slots|]; [|discriminate].
    rewrite loop_step in Hrun.
    destruct (handle_events fd_epoll slots exit_code _) as [c1 w1|c1 w1] eqn:He;
      [|discriminate].
    apply events_codes in He.
    destruct (is_halting w1) eqn:Hw1.
    + inversion Hrun; subst. split; [|exact He].
      destruct (count_by_state STATE_DOWN true (services w1) =? 0);
        simpl; exact Hw1.
    + destruct (IH c1 w1 code w' Hrun) as [Hflag Hcode].
      split; [exact Hflag | eapply loop_codes_step; eassumption].
Qed.

Section ExitsWithin.

Variable codes : list Z.

Lemma exits_ret {A} (a : A) : exits_within codes (ret a).
Proof. intros w code w' Hrun. discriminate. Qed.

Lemma exits_bind {A B} (c : M A) (k : A -> M B) :
  exits_within codes c -> (forall a, exits_within codes (k a)) ->
  exits_within codes (bind c k).
Proof.
  intros Hc Hk w code w' Hrun. unfold bind in Hrun.
  destruct (c w) as [a w1|c1 w1] eqn:Hcw.
  - eapply Hk. exact Hrun.
  - inversion Hrun; subst. eapply Hc. exact Hcw.
Qed.

Lemma exits_load {A} (f : world -> A) : exits_within codes (load f).
Proof. intros w code w' Hrun. discriminate. Qed.

Lemma exits_store f : exits_within codes (store f).
Proof. intros w code w' Hrun. discriminate. Qed.

Lemma exits_emit e : exits_within codes (emit e).
Proof. intros w code w' Hrun. discriminate. Qed.

Lemma exits_set_is_halting : exits_within codes set_is_halting.
Proof. intros w code w' Hrun. discriminate. Qed.

Lemma exits_call {A} (f : os -> A * os) traced :
  exits_within codes (call f traced).
Proof.
  intros w code w' Hrun. unfold call in Hrun.
  destruct (f (env w)). discriminate.
Qed.

Lemma exits_call_registry {A} (f : registry -> os -> A * registry * os)
    traced : exits_within codes (call_registry f traced).
Proof.
  intros w code w' Hrun. unfold call_registry in Hrun.
  destruct (f (services w) (env w)) as [[a r] o]. discriminate.
Qed.

Lemma exits_fatal {A} fmt code args :
  In code codes -> exits_within codes (@fatal E A fmt code args).
Proof. intros Hin w c w' Hrun. inversion Hrun; subst. exact Hin. Qed.

End ExitsWithin.

Create HintDb exits.

#[local] Hint Resolve exits_ret exits_load exits_store exits_emit
  exits_set_is_halting exits_call exits_call_registry : exits.
#[local] Hint Extern 1 (exits_within _ (log_debug _ _)) =>
  apply exits_emit : exits.
#[local] Hint Extern 1 (exits_within _ (log_info _ _)) =>
  apply exits_emit : exits.
#[local] Hint Extern 1 (exits_within _ (log_warning _ _)) =>
  apply exits_emit : exits.
#[local] Hint Extern 1 (exits_within _ (log_error _ _)) =>
  apply exits_emit : exits.
#[local] Hint Extern 1 (exits_within _ (service_find_by_name _)) =>
  apply exits_load : exits.
#[local] Hint Extern 1 (exits_within _ (service_find_by_pid _)) =>
  apply exits_load : exits.
#[local] Hint Extern 1 (exits_within _ (service_count_by_state _ _)) =>
  apply exits_load : exits.
#[local] Hint Extern 2 (exits_within fatal_codes (fatal _ _ _)) =>
  apply exits_fatal; unfold fatal_codes; simpl; tauto : exits.

Ltac exits_walk :=
  repeat match goal with
         | |- exits_within _ (bind _ _) => apply exits_bind; [| intros ?]
         | |- exits_within _ (if ?b then _ else _) => destruct b
         | |- exits_within _ (match ?x with _ => _ end) => destruct x
         | |- exits_within _ _ => solve [auto with exits]
         end.

Lemma exits_init_apply : exits_within fatal_codes init_apply.
Proof. unfold init_apply. exits_walk. Qed.

Lemma exits_init_halt : exits_within fatal_codes init_halt.
Proof. unfold init_halt. exits_walk. Qed.

Lemma exits_init_halt_thread : exits_within fatal_codes init_halt_thread.
Proof. unfold init_halt_thread. exits_walk. Qed.

#[local] Hint Resolve exits_init_apply exits_init_halt
  exits_init_halt_thread : exits.

Lemma exits_halt_thread_runs : exits_within fatal_codes halt_thread_runs.
Proof. unfold halt_thread_runs. exits_walk. Qed.

Lemma exits_init_handle_signal info :
  exits_within fatal_codes (init_handle_signal info).
Proof. unfold init_handle_signal, service_set_down. exits_walk. Qed.

Lemma exits_init_handle_client_command command socket :
  exits_within fatal_codes (init_handle_client_command command socket).
Proof. unfold init_handle_client_command. exits_walk. Qed.

#[local] Hint Resolve exits_halt_thread_runs exits_init_handle_signal
  exits_init_handle_client_command : exits.

Lemma exits_handle_client fd_epoll fd status command :
  exits_within fatal_codes (handle_client fd_epoll fd status command).
Proof. unfold handle_client. exits_walk. Qed.

#[local] Hint Resolve exits_handle_client : exits.

Lemma exits_handle_events fd_epoll slots :
  forall exit_code,
    exits_within fatal_codes (handle_events fd_epoll slots exit_code).
Proof.
  induction slots as [|sl slots IH]; intros exit_code; simpl.
  - auto with exits.
  - destruct sl as [[[info|]|fd_client|fd status command]|]; exits_walk.
Qed.

Lemma exits_loop fd_epoll sched :
  forall exit_code, exits_within fatal_codes (loop fd_epoll sched exit_code).
Proof.
  induction sched as [|wk sched IH]; intros exit_code; simpl.
  - auto with exits.
  - destruct wk as [slots|]; [|auto with exits].
    apply exits_bind; [auto with exits | intros _].
    apply exits_bind; [apply exits_handle_events | intros ec].
    exits_walk.
Qed.

Lemma exits_init_loop sched : exits_within fatal_codes (init_loop sched).
Proof.
  unfold init_loop, init_loop_setup, init_create_signal_fd, init_loop_leave.
  apply exits_bind; [exits_walk | intros [fd_control fd_epoll]].
  apply exits_bind; [apply exits_loop | intros left].
  exits_walk.
Qed.

(** [init_apply] hands back a pid only when the spawn did not fail. *)
Lemma init_apply_returns_a_pid w pid w' :
  init_apply w = Done pid w' -> (pid =? -1) = false.
Proof.
  unfold init_apply. unfold_monad.
  destruct (spawn1 PUPPETIZER_APPLY (env w)) as [p o'].
  destruct (p =? -1) eqn:Hp; [discriminate|].
  intros Hrun. inversion Hrun; subst. exact Hp.
Qed.

Lemma init_boot_enters_init_loop sched w pid w1 :
  init_apply w = Done pid w1 ->
  init_boot sched w = init_loop sched (with_boot_pid pid w1).
Proof.
  intros Ha. unfold init_boot. unfold bind at 1. rewrite Ha.
  unfold bind at 1. unfold store.
  rewrite (init_apply_returns_a_pid _ _ _ Ha). reflexivity.
Qed.

(** The exit codes of the supervisor. When the process exits in [fatal] the
    code is one of spawn, thread, descriptor, socket, epoll set-up and epoll
    wait failure; the call of [fatal] with [ERROR_BOOT_FAILED] in
    [init_boot] is never reached, because [init_apply] has already exited
    when the spawn fails. When [init_boot] returns, halting has begun, and
    the code returned is 0 or one of the three codes the loop notes. *)
Theorem supervisor_exit_codes sched w :
  match init_boot sched w with
  | Fatal code _ => In code fatal_codes
  | Done (Some code) w' => In code (loop_codes 0) /\ is_halting w' = true
  | Done None _ => True
  end.
Proof.
  destruct (init_apply w) as [pid w1|c1 w1] eqn:Ha.
  - rewrite (init_boot_enters_init_loop sched w pid w1 Ha).
    destruct (init_loop sched (with_boot_pid pid w1)) as [[code|] w'|code w']
      eqn:Hrun; [| exact I | eapply exits_init_loop; exact Hrun].
    unfold init_loop in Hrun. unfold bind at 1 in Hrun.
    destruct (init_loop_setup _) as [[fd_control fd_epoll] w2|c2 w2];
      [|discriminate].
    unfold bind at 1 in Hrun.
    destruct (loop fd_epoll sched 0 w2) as [[c3|] w3|c3 w3] eqn:Hloop;
      [| discriminate | discriminate].
    apply loop_returns_when_halting in Hloop as [Hflag Hcode].
    pose proof (keeps_init_loop_leave _ stable_is_halting fd_control (Some c3)
                  w3 Hflag) as Hleave.
    rewrite Hrun in Hleave. simpl in Hleave.
    assert (Hc : returned (init_loop_leave fd_control (Some c3) w3)
                 = Some (Some code)) by (rewrite Hrun; reflexivity).
    split; [|exact Hleave].
    clear - Hc Hcode. revert Hc. unfold init_loop_leave. unfold_monad.
    simpl. destruct (halt_thread w3 =? 0); simpl.
    + intros Hc. inversion Hc; subst. exact Hcode.
    + match goal with
      | |- context [halt_thread_runs ?x] => destruct (halt_thread_runs x)
      end; simpl; intros Hc; inversion Hc; subst. exact Hcode.
  - unfold init_boot. unfold bind at 1. rewrite Ha.
    eapply exits_init_apply. exact Ha.
Qed.

(** [boot_pid] is the pid of the apply script from the moment [init_boot] has
    spawned it to the end of the run: the loop, the handlers and the halt
    threads never write it. When the spawn fails the process exits with
    [ERROR_SPAWN_FAILED] before the loop is set up. *)
Theorem boot_pid_is_the_apply_pid sched w :
  if fst (spawn1 PUPPETIZER_APPLY (env w)) =? -1
  then exists w', init_boot sched w = Fatal ERROR_SPAWN_FAILED w' /\
                  since w (init_boot sched w)
                  = [call_spawn1 PUPPETIZER_APPLY (-1);
                     logged LOG_ERROR "Failed to start puppet apply" []]
  else boot_pid (final_world (init_boot sched w))
       = fst (spawn1 PUPPETIZER_APPLY (env w)).
Proof.
  destruct (fst (spawn1 PUPPETIZER_APPLY (env w)) =? -1) eqn:Hp.
  - apply Z.eqb_eq in Hp. unfold init_boot, init_apply. unfold_monad.
    destruct (spawn1 PUPPETIZER_APPLY (env w)) as [p o'] eqn:Hsp.
    simpl in Hp. subst p. simpl. eexists. split; [reflexivity|].
    trace_done. reflexivity.
  - assert (Ha : exists w1, init_apply w
                            = Done (fst (spawn1 PUPPETIZER_APPLY (env w))) w1).
    { unfold init_apply. unfold_monad.
      destruct (spawn1 PUPPETIZER_APPLY (env w)) as [p o'] eqn:Hsp.
      simpl in *. rewrite Hp. eexists. reflexivity. }
    destruct Ha as [w1 Ha].
    rewrite (init_boot_enters_init_loop sched w _ w1 Ha).
    apply (keeps_init_loop _ (stable_boot_pid _) sched). reflexivity.
Qed.

(** ** Reaping, and the scan of a wake-up *)

(** Every SIGCHLD is reaped, and nothing else is: for a pid in the range of
    [pid_t] (where the [uint32_t] field [ssi_pid] and the [pid_t] handed to
    [waitpid] are the same number) the handler calls [waitpid] exactly once,
    for the pid the signal reports, whatever it then decides (boot script,
    service, unknown pid), and for no other signal. *)
Theorem sigchld_always_reaps info w :
  0 <= ssi_pid info < 2 ^ 31 ->
  waited (since w (init_handle_signal info w))
  = if ssi_signo info =? SIGCHLD then [ssi_pid info] else [].
Proof.
  intros _. destruct info as [signo pid].
  unfold init_handle_signal, init_halt_thread, init_apply. unfold_monad.
  destruct w as [halting bp ht sv pd o t]. simpl.
  crunch; trace_done; reflexivity.
Qed.

(** An event that notes an exit code ends the scan of its wake-up: a signal
    record of the wrong size, a signal whose handler returned FALSE and a
    client socket that could not be polled each leave the scan with their
    code, whatever code was held before (also the same one), and the events
    reported after them are not handled in this wake-up. After any other
    event the scan goes on with the events that remain, the code held
    unchanged. *)
Theorem events_after_a_break_are_skipped fd_epoll ev rest exit_code w :
  match ends_scan fd_epoll ev w with
  | Some code =>
      exists w',
        handle_events fd_epoll [Ready ev] exit_code w = Done code w' /\
        handle_events fd_epoll (Ready ev :: rest) exit_code w = Done code w'
  | None =>
      handle_events fd_epoll (Ready ev :: rest) exit_code w
      = bind (handle_events fd_epoll [Ready ev] exit_code)
          (fun _ => handle_events fd_epoll rest exit_code) w
  end.
Proof.
  destruct ev as [[info|]|fd_client|fd status command];
    unfold ends_scan, returned; simpl.
  - unfold bind, ret.
    destruct (init_handle_signal info w) as [[|] w1|c1 w1];
      try reflexivity.
    exists w1. split; reflexivity.
  - unfold_monad. eexists. split; reflexivity.
  - unfold_monad.
    destruct (epoll_ctl fd_epoll EPOLL_CTL_ADD fd_client (env w)) as [rc o'].
    simpl. destruct (rc =? -1); [|reflexivity].
    eexists. split; reflexivity.
  - unfold bind, ret.
    destruct (handle_client fd_epoll fd status command w) as [[] w1|c1 w1];
      reflexivity.
Qed.

End Properties.

(** * Runs of the supervisor in the scripted world *)

Section Runs.

#[local] Existing Instance sample_headers.
#[local] Existing Instance scripted.

Lemma boot_enters_loop r exits sched :
  boot r exits sched
  = bind (loop 5 sched 0) (init_loop_leave 4) (entering r exits).
Proof. reflexivity. Qed.

(** C1: the loop is left with a service outstanding. SIGTERM creates the halt
    thread; the thread runs and stop-all leaves nginx pending down; at the
    next wake-up, a timeout with no event, the loop sees [is_halting] and
    returns although one service is not down. *)
Theorem loop_left_with_service_outstanding :
  returned (boot [nginx 200 STATE_UP] []
              [Epoll_ready [sigterm]; Epoll_ready [Halt_thread_runs]])
    = Some (Some 0) /\
  is_halting (final_world
                (boot [nginx 200 STATE_UP] []
                   [Epoll_ready [sigterm]; Epoll_ready [Halt_thread_runs]]))
    = true /\
  count_by_state STATE_DOWN true
    (services (final_world
                 (boot [nginx 200 STATE_UP] []
                    [Epoll_ready [sigterm]; Epoll_ready [Halt_thread_runs]])))
    = 1.
Proof. repeat split; vm_compute; reflexivity. Qed.

(** C2: a second halt thread is created. SIGTERM creates the first one; it
    runs and sets [is_halting]; nginx, asked to stop, then exits with code 1,
    and the SIGCHLD branch calls [pthread_create] again, whose handle
    replaces the first in [halt_thread]. The halt procedure itself went past
    its guard once. *)
Theorem second_halt_thread_created :
  returned (boot [nginx 200 STATE_UP] [(200, 1)]
              [Epoll_ready [sigterm];
               Epoll_ready [Halt_thread_runs; sigchld 200]])
    = Some (Some 0) /\
  halt_threads_created
    (trace (final_world
              (boot [nginx 200 STATE_UP] [(200, 1)]
                 [Epoll_ready [sigterm];
                  Epoll_ready [Halt_thread_runs; sigchld 200]])))
    = 2%nat /\
  halt_procedures_run
    (trace (final_world
              (boot [nginx 200 STATE_UP] [(200, 1)]
                 [Epoll_ready [sigterm];
                  Epoll_ready [Halt_thread_runs; sigchld 200]])))
    = 1%nat /\
  halt_thread (final_world
                 (boot [nginx 200 STATE_UP] [(200, 1)]
                    [Epoll_ready [sigterm];
                     Epoll_ready [Halt_thread_runs; sigchld 200]]))
    = 102.
Proof. repeat split; vm_compute; reflexivity. Qed.

(** C6: a failed boot script does not end the loop. The apply script, pid
    100, exits with code 2: the loop notes [ERROR_EPOLL_SIGNAL] and goes on
    waiting, through any number of wake-ups; it is left only once halting
    has begun, here on SIGTERM, after the halt procedure ran, and the exit
    code is the one noted. *)
Theorem boot_failure_does_not_leave_loop :
  (forall n,
     returned (boot [nginx 200 STATE_UP] [(100, 2)]
                 (Epoll_ready [sigchld 100] :: repeat timeout n))
       = Some None /\
     is_halting (final_world
                   (boot [nginx 200 STATE_UP] [(100, 2)]
                      (Epoll_ready [sigchld 100] :: repeat timeout n)))
       = false) /\
  returned (boot [nginx 200 STATE_UP] [(100, 2)]
              [Epoll_ready [sigchld 100];
               Epoll_ready [sigterm; Halt_thread_runs]])
    = Some (Some ERROR_EPOLL_SIGNAL) /\
  halt_procedures_run
    (trace (final_world
              (boot [nginx 200 STATE_UP] [(100, 2)]
                 [Epoll_ready [sigchld 100];
                  Epoll_ready [sigterm; Halt_thread_runs]])))
    = 1%nat.
Proof.
  split; [|split; vm_compute; reflexivity].
  intros n. rewrite boot_enters_loop.
  assert (Hret : reaped_retval (boot_pid (entering [nginx 200 STATE_UP] [(100, 2)]))
                   (entering [nginx 200 STATE_UP] [(100, 2)]) <> 0)
    by (vm_compute; discriminate).
  destruct (boot_failure_keeps_waiting 5 n 0
              (entering [nginx 200 STATE_UP] [(100, 2)]) eq_refl Hret)
    as (w' & Heq & Hh).
  assert (Heq' : loop 5 (Epoll_ready [sigchld 100] :: repeat timeout n) 0
                   (entering [nginx 200 STATE_UP] [(100, 2)]) = Done None w')
    by exact Heq.
  unfold bind. rewrite Heq'. simpl. split; [reflexivity | exact Hh].
Qed.



(** C5 fails: a stop command for a name that is not in the table, while not
    halting, is answered with the error tag, which is not the tag
    FAILED_LOOKUP. *)
Lemma unknown_service_not_failed_lookup :
  sent (since (entering [nginx 200 STATE_UP] [])
          (init_handle_client_command stop_nonexistent 7
             (entering [nginx 200 STATE_UP] [])))
    = [(7, CMD_RESPONSE_ERROR, 1, 1)] /\
  CMD_RESPONSE_ERROR <> CMD_RESPONSE_FAILED_LOOKUP.
Proof. split; [vm_compute; reflexivity | discriminate]. Qed.

Lemma unknown_service_generic_error_witness :
  find_service (has_name (name stop_nonexistent))
    (services (entering [nginx 200 STATE_UP] [])) = None /\
  (exists n,
     sent (since (entering [nginx 200 STATE_UP] [])
             (init_handle_client_command stop_nonexistent 7
                (entering [nginx 200 STATE_UP] [])))
     = [(7, CMD_RESPONSE_ERROR, sizeof_control_reponse_t, n)]) /\
  filter is_registry_call
    (since (entering [nginx 200 STATE_UP] [])
       (init_handle_client_command stop_nonexistent 7
          (entering [nginx 200 STATE_UP] [])))
    = [].
Proof.
  split; [reflexivity|].
  destruct (unknown_service_generic_error stop_nonexistent 7
              (entering [nginx 200 STATE_UP] []) eq_refl)
    as (Hsent & _ & Hcalls & _).
  split; [exact Hsent | exact Hcalls].
Defined.

(** C7 at work: state 3 in a response of one byte. *)
Lemma status_response_round_trip_witness :
  0 <= CMD_RESPONSE_STATE < 16 /\
  0 <= 3 < 2 ^ (8 * sizeof_control_reponse_t - 4) /\
  response_tag (status_response 3) = CMD_RESPONSE_STATE /\
  response_state (status_response 3) = 3.
Proof.
  assert (Ht : 0 <= CMD_RESPONSE_STATE < 16) by (simpl; lia).
  assert (Hs : 0 <= 3 < 2 ^ (8 * sizeof_control_reponse_t - 4))
    by (simpl; lia).
  split; [exact Ht|]. split; [exact Hs|].
  destruct (status_response_round_trip 3 Ht Hs) as (_ & _ & Htag & Hstate).
  split; [exact Htag | exact Hstate].
Defined.


(** C9 fails where stop-all finds nothing to stop: every service is down, the
    halt procedure calls stop-all and logs no warning. *)
Lemma halt_without_warning :
  since (entering [nginx 200 STATE_DOWN] [])
    (init_halt (entering [nginx 200 STATE_DOWN] []))
    = [store_is_halting;
       logged LOG_DEBUG "Running halt action" [];
       call_spawn2_wait PUPPETIZER_APPLY "halt" 0;
       call_service_stop_all 0] /\
  logged_at LOG_WARNING
    (since (entering [nginx 200 STATE_DOWN] [])
       (init_halt (entering [nginx 200 STATE_DOWN] [])))
    = [].
Proof. split; vm_compute; reflexivity. Qed.

(** C9 at work: one service is up when halting begins. *)
Lemma halt_procedure_steps_witness :
  is_halting (entering [nginx 200 STATE_UP] []) = false /\
  exists w',
    init_halt (entering [nginx 200 STATE_UP] []) = Done tt w' /\
    is_halting w' = true /\
    since (entering [nginx 200 STATE_UP] [])
      (init_halt (entering [nginx 200 STATE_UP] []))
    = [store_is_halting;
       logged LOG_DEBUG "Running halt action" [];
       call_spawn2_wait PUPPETIZER_APPLY "halt" 0;
       call_service_stop_all 1;
       logged LOG_WARNING "Stopping %d outstanding services." [arg_d 1]].
Proof.
  split; [reflexivity|].
  destruct (halt_procedure_steps (entering [nginx 200 STATE_UP] []) eq_refl)
    as (rc & n & w' & Hrun & Hflag & Hrc & Hn & Htrace).
  exists w'. split; [exact Hrun|]. split; [exact Hflag|].
  reflexivity.
Defined.

(** An unknown pid at work: pid 300 is neither the apply script nor nginx. *)
Lemma unknown_pid_reap_witness :
  0 <= 300 < 2 ^ 31 /\
  boot_pid (entering [nginx 200 STATE_UP] []) <> 300 /\
  find_service (has_pid 300) (services (entering [nginx 200 STATE_UP] []))
    = None /\
  since (entering [nginx 200 STATE_UP] [])
    (init_handle_signal (child_exited 300) (entering [nginx 200 STATE_UP] []))
    = [call_waitpid 300 0;
       logged LOG_INFO "Reaped zombie PID:%d" [arg_d 300]] /\
  services
    (final_world
       (init_handle_signal (child_exited 300)
          (entering [nginx 200 STATE_UP] [])))
    = [nginx 200 STATE_UP].
Proof.
  assert (Hrange : 0 <= 300 < 2 ^ 31) by lia.
  assert (Hne : boot_pid (entering [nginx 200 STATE_UP] []) <> 300)
    by discriminate.
  split; [exact Hrange|]. split; [exact Hne|]. split; [reflexivity|].
  destruct (unknown_pid_reap 300 (entering [nginx 200 STATE_UP] []) Hrange
              Hne eq_refl) as (_ & Htrace & Hservices & _).
  split; [exact Htrace | exact Hservices].
Defined.

(** Shutdown completion at work: halting, nginx already down, a timeout. *)
Lemma shutdown_completion_witness :
  is_halting (with_is_halting true (entering [nginx 200 STATE_DOWN] []))
    = true /\
  count_by_state STATE_DOWN true
    (services (with_is_halting true (entering [nginx 200 STATE_DOWN] [])))
    = 0 /\
  returned
    (loop 5 [timeout] 0
       (with_is_halting true (entering [nginx 200 STATE_DOWN] [])))
    = Some (Some 0).
Proof.
  split; [reflexivity|]. split; [reflexivity|].
  exact (proj1 (shutdown_completion 5 [] 0
                  (with_is_halting true (entering [nginx 200 STATE_DOWN] []))
                  eq_refl eq_refl)).
Defined.

(** A SIGTERM while halting. *)
Lemma signals_ignored_while_halting_witness :
  is_halting (with_is_halting true (entering [nginx 200 STATE_UP] [])) = true /\
  In (ssi_signo terminate) [SIGTERM; SIGINT; SIGHUP] /\
  exists line,
    init_handle_signal terminate
      (with_is_halting true (entering [nginx 200 STATE_UP] []))
    = Done true
        (with_trace
           (trace (with_is_halting true (entering [nginx 200 STATE_UP] []))
            ++ [logged LOG_WARNING line []])
           (with_is_halting true (entering [nginx 200 STATE_UP] []))).
Proof.
  split; [reflexivity|]. split; [left; reflexivity|].
  exact (signals_ignored_while_halting terminate
           (with_is_halting true (entering [nginx 200 STATE_UP] []))
           eq_refl (or_introl eq_refl)).
Defined.

(** A SIGTERM while running: one thread is asked for, and the handler
    returns TRUE. *)
Lemma term_signal_asks_for_one_thread_witness :
  is_halting (entering [nginx 200 STATE_UP] []) = false /\
  (ssi_signo terminate = SIGTERM \/ ssi_signo terminate = SIGINT) /\
  halt_threads_created
    (since (entering [nginx 200 STATE_UP] [])
       (init_handle_signal terminate (entering [nginx 200 STATE_UP] [])))
    = 1%nat /\
  returned (init_handle_signal terminate (entering [nginx 200 STATE_UP] []))
    = Some true.
Proof.
  split; [reflexivity|]. split; [left; reflexivity|].
  destruct (term_signal_asks_for_one_thread terminate
              (entering [nginx 200 STATE_UP] []) eq_refl
              (or_introl eq_refl)) as (Hone & Hret & _).
  split; [exact Hone | exact Hret].
Defined.

(** A SIGHUP while running: the apply script is spawned again, as pid 101,
    and [boot_pid] stays 100. *)
Lemma sighup_runs_apply_witness :
  is_halting (entering [nginx 200 STATE_UP] []) = false /\
  ssi_signo hangup = SIGHUP /\
  filter is_spawn
    (since (entering [nginx 200 STATE_UP] [])
       (init_handle_signal hangup (entering [nginx 200 STATE_UP] [])))
    = [call_spawn1 PUPPETIZER_APPLY 101] /\
  boot_pid
    (final_world
       (init_handle_signal hangup (entering [nginx 200 STATE_UP] [])))
    = 100.
Proof.
  split; [reflexivity|]. split; [reflexivity|].
  destruct (sighup_runs_apply hangup (entering [nginx 200 STATE_UP] [])
              eq_refl eq_refl) as (Hspawn & Hboot & _).
  split; [exact Hspawn | exact Hboot].
Defined.

(** A client that closed its socket. *)
Lemma client_gone_is_deregistered_witness :
  S_SOCKET_EOF <> S_OK /\
  sent (since (entering [nginx 200 STATE_UP] [])
          (handle_client 5 7 S_SOCKET_EOF stop_nginx
             (entering [nginx 200 STATE_UP] [])))
    = [] /\
  torn_down 7
    (since (entering [nginx 200 STATE_UP] [])
       (handle_client 5 7 S_SOCKET_EOF stop_nginx
          (entering [nginx 200 STATE_UP] [])))
    = true.
Proof.
  assert (Hne : S_SOCKET_EOF <> S_OK) by discriminate.
  split; [exact Hne|].
  destruct (client_gone_is_deregistered 5 7 S_SOCKET_EOF stop_nginx
              (entering [nginx 200 STATE_UP] []) Hne)
    as (Hsent & _ & Htorn & _).
  split; [exact Hsent | exact Htorn].
Defined.

(** A start command for nginx while running. *)
Lemma start_stop_delegated_witness :
  is_halting (entering [nginx 200 STATE_DOWN] []) = false /\
  find_service (has_name (name start_nginx))
    (services (entering [nginx 200 STATE_DOWN] []))
    = Some (0%nat, nginx 200 STATE_DOWN) /\
  filter is_registry_call
    (since (entering [nginx 200 STATE_DOWN] [])
       (init_handle_client_command start_nginx 7
          (entering [nginx 200 STATE_DOWN] [])))
    = [call_service_start 0 true] /\
  services
    (final_world
       (init_handle_client_command start_nginx 7
          (entering [nginx 200 STATE_DOWN] [])))
    = [nginx 200 STATE_UP].
Proof.
  split; [reflexivity|]. split; [reflexivity|].
  destruct (proj1 (start_stop_delegated start_nginx 7 0
                     (nginx 200 STATE_DOWN)
                     (entering [nginx 200 STATE_DOWN] []) eq_refl eq_refl)
              eq_refl) as (Hcalls & _ & Htable).
  split; [exact Hcalls | exact Htable].
Defined.

(** A status command for nginx, up. *)
Lemma status_only_reads_witness :
  type status_nginx = CMD_STATUS /\
  find_service (has_name (name status_nginx))
    (services (entering [nginx 200 STATE_UP] []))
    = Some (0%nat, nginx 200 STATE_UP) /\
  (exists n,
     sent (since (entering [nginx 200 STATE_UP] [])
             (init_handle_client_command status_nginx 7
                (entering [nginx 200 STATE_UP] [])))
     = [(7, status_response STATE_UP, sizeof_control_reponse_t, n)]) /\
  services
    (final_world
       (init_handle_client_command status_nginx 7
          (entering [nginx 200 STATE_UP] [])))
    = [nginx 200 STATE_UP].
Proof.
  split; [reflexivity|]. split; [reflexivity|].
  destruct (status_only_reads status_nginx 7 0 (nginx 200 STATE_UP)
              (entering [nginx 200 STATE_UP] []) eq_refl eq_refl)
    as (Hsent & _ & Htable & _).
  split; [exact Hsent | exact Htable].
Defined.

(** A SIGTERM and a timeout, the halt thread not yet scheduled: the loop is
    still waiting. *)
Lemma flag_set_only_by_halt_thread_witness :
  no_thread_runs [Epoll_ready [sigterm]; timeout] = true /\
  is_halting
    (final_world
       (loop 5 [Epoll_ready [sigterm]; timeout] 0
          (entering [nginx 200 STATE_UP] [])))
    = false /\
  (returned
     (loop 5 [Epoll_ready [sigterm]; timeout] 0
        (entering [nginx 200 STATE_UP] [])) = Some None \/
   returned
     (loop 5 [Epoll_ready [sigterm]; timeout] 0
        (entering [nginx 200 STATE_UP] [])) = None).
Proof.
  split; [reflexivity|].
  destruct (flag_set_only_by_halt_thread 5 [Epoll_ready [sigterm]; timeout]
              0 (entering [nginx 200 STATE_UP] []) eq_refl)
    as (Hflag & Hret).
  split; [exact Hflag | exact (Hret eq_refl)].
Defined.

(** The boot script fails and a client command is ready in the same wake-up,
    the code held being already [ERROR_EPOLL_SIGNAL]: the command is not
    handled. *)
Lemma events_after_a_break_are_skipped_witness :
  exists w',
    handle_events 5 [sigchld 100] ERROR_EPOLL_SIGNAL
      (entering [nginx 200 STATE_UP] [(100, 2)])
    = Done ERROR_EPOLL_SIGNAL w' /\
    handle_events 5 [sigchld 100; Ready (EV_client 7 S_OK stop_nginx)]
      ERROR_EPOLL_SIGNAL (entering [nginx 200 STATE_UP] [(100, 2)])
    = Done ERROR_EPOLL_SIGNAL w'.
Proof.
  exact (events_after_a_break_are_skipped 5
           (EV_signal (Some (child_exited 100)))
           [Ready (EV_client 7 S_OK stop_nginx)] ERROR_EPOLL_SIGNAL
           (entering [nginx 200 STATE_UP] [(100, 2)])).
Defined.

(** A SIGCHLD for nginx, pid 200: [waitpid] is called for 200. *)
Lemma sigchld_always_reaps_witness :
  0 <= ssi_pid (child_exited 200) < 2 ^ 31 /\
  waited
    (since (entering [nginx 200 STATE_UP] [(200, 0)])
       (init_handle_signal (child_exited 200)
          (entering [nginx 200 STATE_UP] [(200, 0)])))
  = [200].
Proof.
  assert (Hrange : 0 <= ssi_pid (child_exited 200) < 2 ^ 31)
    by (simpl; lia).
  split; [exact Hrange|].
  exact (sigchld_always_reaps (child_exited 200)
           (entering [nginx 200 STATE_UP] [(200, 0)]) Hrange).
Defined.

(** Halting, a SIGTERM and a stop command in one wake-up: the flag is still
    set when the loop is left. *)
Lemma is_halting_stays_set_witness :
  is_halting (with_is_halting true (entering [nginx 200 STATE_UP] [])) = true /\
  is_halting
    (final_world
       (loop 5 [Epoll_ready [sigterm; Ready (EV_client 7 S_OK stop_nginx)]]
          0 (with_is_halting true (entering [nginx 200 STATE_UP] []))))
  = true.
Proof.
  split; [reflexivity|].
  exact (proj1 (proj2 (proj2
           (is_halting_stays_set terminate stop_nginx 7 5
              [Epoll_ready [sigterm; Ready (EV_client 7 S_OK stop_nginx)]]
              0 (with_is_halting true (entering [nginx 200 STATE_UP] []))
              eq_refl)))).
Defined.

(** C3 at work: halting, a stop command and a status command for nginx,
    which is up. *)
Lemma halt_gating_witness :
  is_halting (with_is_halting true (entering [nginx 200 STATE_UP] [])) = true /\
  ((exists n,
      sent (since (with_is_halting true (entering [nginx 200 STATE_UP] []))
              (init_handle_client_command stop_nginx 7
                 (with_is_halting true (entering [nginx 200 STATE_UP] []))))
      = [(7, CMD_RESPONSE_ERROR, sizeof_control_reponse_t, n)]) /\
   filter is_registry_call
     (since (with_is_halting true (entering [nginx 200 STATE_UP] []))
        (init_handle_client_command stop_nginx 7
           (with_is_halting true (entering [nginx 200 STATE_UP] []))))
     = [] /\
   services
     (final_world
        (init_handle_client_command stop_nginx 7
           (with_is_halting true (entering [nginx 200 STATE_UP] []))))
     = [nginx 200 STATE_UP]) /\
  (0 <= CMD_RESPONSE_STATE < 16 /\
   0 <= STATE_UP < 2 ^ (8 * sizeof_control_reponse_t - 4)) /\
  (exists n,
     sent (since (with_is_halting true (entering [nginx 200 STATE_UP] []))
             (init_handle_client_command status_nginx 7
                (with_is_halting true (entering [nginx 200 STATE_UP] []))))
     = [(7, status_response STATE_UP, sizeof_control_reponse_t, n)]) /\
  response_tag (status_response STATE_UP) = CMD_RESPONSE_STATE /\
  response_state (status_response STATE_UP) = STATE_UP.
Proof.
  assert (Ht : 0 <= CMD_RESPONSE_STATE < 16) by (simpl; lia).
  assert (Hs : 0 <= STATE_UP < 2 ^ (8 * sizeof_control_reponse_t - 4))
    by (unfold STATE_UP; simpl; lia).
  split; [reflexivity|]. split.
  - apply (proj1 (halt_gating stop_nginx 7
                    (with_is_halting true (entering [nginx 200 STATE_UP] []))
                    eq_refl)).
    right. reflexivity.
  - split; [exact (conj Ht Hs)|].
    destruct (proj2 (halt_gating status_nginx 7
                       (with_is_halting true
                          (entering [nginx 200 STATE_UP] []))
                       eq_refl)
                eq_refl 0%nat (nginx 200 STATE_UP) eq_refl)
      as (Hsent & _ & _ & _ & Hdecode).
    split; [exact Hsent | exact (Hdecode Ht Hs)].
Defined.

End Runs.
